(** * The simulated-register flight-controller demo (nasa_macro.c)

    A shallow embedding of the single translation unit that drives four
    simulated 32-bit hardware registers through a temperature-to-thrust
    control loop, together with the properties of its register bank, its
    control loop and its X-macro error table.

    Conventions of the embedding:
    - [uint32_t] and [int] values are integers in [Z]; every conversion the
      C code performs (explicit cast, assignment to a narrower or unsigned
      object, the usual arithmetic conversions of a comparison) is written
      out with [to_uint32] / [to_int].
    - The global [HW] and the standard error stream form the [world] that
      every function threads through the state monad [M].
    - Preprocessor switches ([FLIGHT_BUILD]/[GROUND_BUILD], [CPU_ARM]/
      [CPU_RISCV]) are a [config] value; [SIM_HW_REGS] is taken as defined.
    - [__FILE__] and [__LINE__] are not recorded in log lines; [__func__]
      is, so a statement macro takes the name of the enclosing function. *)

From Stdlib Require Import ZArith Lia Bool List String.
Import ListNotations.

Local Open Scope Z_scope.

(** ** Machine integers *)

Definition UINT32_MODULUS : Z := 2 ^ 32.

(** Conversion to [uint32_t]: reduction modulo 2^32. *)
Definition to_uint32 (z : Z) : Z := z mod UINT32_MODULUS.

(** Conversion to (32-bit, two's complement) [int]. *)
Definition to_int (z : Z) : Z :=
  let u := z mod UINT32_MODULUS in
  if u <? 2 ^ 31 then u else u - UINT32_MODULUS.

Definition uint32_range (z : Z) : Prop := 0 <= z < UINT32_MODULUS.

(** ** 0/1) Build selection and compile-time configuration knobs *)

Inductive build_type : Type := FLIGHT_BUILD | GROUND_BUILD.
Inductive cpu_type : Type := CPU_ARM | CPU_RISCV.

Record config : Type := Config { build : build_type; cpu : cpu_type }.

Definition CFG_ENABLE_ASSERTS (cfg : config) : bool :=
  match build cfg with FLIGHT_BUILD => false | GROUND_BUILD => true end.

Definition CFG_ENABLE_LOGS (cfg : config) : bool :=
  match build cfg with FLIGHT_BUILD => false | GROUND_BUILD => true end.

Definition CFG_MAX_THRUST_N (cfg : config) : Z :=
  match build cfg with FLIGHT_BUILD => 5000 | GROUND_BUILD => 4000 end.

(** ** 6) Hardware registers (simulated mapping) *)

Record hw_regs_t : Type := Regs {
  CTRL : Z;      (* control register *)
  STATUS : Z;    (* status register  *)
  THRUST : Z;    (* thrust (Newtons) *)
  SENS_TEMP : Z  (* temp sensor (raw)*)
}.

(** [static hw_regs_t HW = {0};] *)
Definition HW_init : hw_regs_t := Regs 0 0 0 0.

Definition regs_in_range (hw : hw_regs_t) : Prop :=
  uint32_range (CTRL hw) /\ uint32_range (STATUS hw) /\
  uint32_range (THRUST hw) /\ uint32_range (SENS_TEMP hw).

(** ** 4) What reaches the standard error stream *)

Inductive log_msg : Type :=
| MsgBuild                                   (* "Build: ..." banner *)
| MsgSafeCallFailed (call : string) (rc : Z) (* "SAFE_CALL failed: %s -> rc=%d" *)
| MsgAssert (expr : string)                  (* "ASSERT: %s" *)
| MsgSystemEnabled                           (* "System ENABLED" *)
| MsgSystemDisabled                          (* "System DISABLED" *)
| MsgFaultSignaled                           (* "FAULT signaled" *)
| MsgThrustCapping (n limit : Z)             (* "Thrust request %u exceeds limit %u" *)
| MsgThrustSet (n : Z)                       (* "THRUST set to %u N" *)
| MsgTemp (c : Z).                           (* "Temp=%d C" *)

Inductive stderr_line : Type :=
| LogLine (func : string) (m : log_msg)      (* "[LOG] file:line func(): ..." *)
| TraceLine (func : string)                  (* "[TRACE] file:line in func()" *)
| ErrorLine (rc : Z) (msg : string).         (* "ERROR %d: %s" *)

(** ** The world and its state monad *)

Record world : Type := World {
  HW : hw_regs_t;
  stderr : list stderr_line
}.

Definition world_init : world := World HW_init [].

Definition M (A : Type) : Type := world -> A * world.

Definition ret {A : Type} (a : A) : M A := fun w => (a, w).

Definition bind {A B : Type} (c : M A) (k : A -> M B) : M B :=
  fun w => let (a, w') := c w in k a w'.

Declare Scope m_scope.
Delimit Scope m_scope with M.
Notation "x <- c ;; k" := (bind c (fun x => k))
  (at level 61, c at next level, right associativity) : m_scope.
Notation "c ;; k" := (bind c (fun _ => k))
  (at level 61, right associativity) : m_scope.
Local Open Scope m_scope.

Definition exec {A : Type} (c : M A) (w : world) : world := snd (c w).
Definition eval {A : Type} (c : M A) (w : world) : A := fst (c w).

Definition fputs_stderr (l : stderr_line) : M unit :=
  fun w => (tt, World (HW w) (stderr w ++ [l])).

Definition LOGF (cfg : config) (func : string) (m : log_msg) : M unit :=
  if CFG_ENABLE_LOGS cfg then fputs_stderr (LogLine func m) else ret tt.

Definition TRACE (cfg : config) (func : string) : M unit :=
  if CFG_ENABLE_LOGS cfg then fputs_stderr (TraceLine func) else ret tt.

(** [REG32(name)] as an rvalue. *)
Definition REG32 (name : hw_regs_t -> Z) : M Z := fun w => (name (HW w), w).

(** [REG32(name) = v] for the three registers the program writes; the
    stored value is converted to [uint32_t]. *)
Definition REG32_CTRL_set (v : Z) : M unit :=
  fun w => let hw := HW w in
    (tt, World (Regs (to_uint32 v) (STATUS hw) (THRUST hw) (SENS_TEMP hw)) (stderr w)).

Definition REG32_THRUST_set (v : Z) : M unit :=
  fun w => let hw := HW w in
    (tt, World (Regs (CTRL hw) (STATUS hw) (to_uint32 v) (SENS_TEMP hw)) (stderr w)).

Definition REG32_SENS_TEMP_set (v : Z) : M unit :=
  fun w => let hw := HW w in
    (tt, World (Regs (CTRL hw) (STATUS hw) (THRUST hw) (to_uint32 v)) (stderr w)).

(** Bit fields for CTRL *)
Definition CTRL_ENABLE : Z := Z.shiftl 1 0.
Definition CTRL_FAULT : Z := Z.shiftl 1 1.

Definition ENABLE_SYSTEM (cfg : config) (func : string) : M unit :=
  c <- REG32 CTRL ;;
  REG32_CTRL_set (Z.lor c CTRL_ENABLE) ;;
  LOGF cfg func MsgSystemEnabled.

Definition DISABLE_SYSTEM (cfg : config) (func : string) : M unit :=
  c <- REG32 CTRL ;;
  REG32_CTRL_set (Z.land c (to_uint32 (Z.lnot CTRL_ENABLE))) ;;
  LOGF cfg func MsgSystemDisabled.

Definition SIGNAL_FAULT (cfg : config) (func : string) : M unit :=
  c <- REG32 CTRL ;;
  REG32_CTRL_set (Z.lor c CTRL_FAULT) ;;
  LOGF cfg func MsgFaultSignaled.

(** The test [REG32(CTRL) & CTRL_FAULT] of the control loop. *)
Definition fault_is_set (hw : hw_regs_t) : bool :=
  negb (Z.land (CTRL hw) CTRL_FAULT =? 0).

(** Thrust write with safety cap.  [_n > CFG_MAX_THRUST_N] compares a
    [uint32_t] with an [int], so the constant is converted to unsigned. *)
Definition SET_THRUST_N (cfg : config) (func : string) (newton : Z) : M unit :=
  let _n := to_uint32 newton in
  _n <- (if _n >? to_uint32 (CFG_MAX_THRUST_N cfg) then
           LOGF cfg func
             (MsgThrustCapping _n (to_uint32 (CFG_MAX_THRUST_N cfg))) ;;
           ret (to_uint32 (CFG_MAX_THRUST_N cfg))
         else ret _n) ;;
  REG32_THRUST_set _n ;;
  LOGF cfg func (MsgThrustSet _n).

(** ** 7) Platform/arch abstraction (sensor read)

    Both readers return the status and the value stored through [out]. *)

Definition read_sensor_riscv : M (Z * Z) :=
  t <- REG32 SENS_TEMP ;; ret (0, to_int t).

Definition read_sensor_arm : M (Z * Z) :=
  t <- REG32 SENS_TEMP ;; ret (0, to_int t).

Definition READ_TEMP_RAW (cfg : config) : M (Z * Z) :=
  match cpu cfg with
  | CPU_ARM => read_sensor_arm
  | CPU_RISCV => read_sensor_riscv
  end.

(** ** 8) X-macros: error codes and messages kept in sync *)

Definition ERR_OK : Z := 0.
Definition ERR_SENSOR_FAIL : Z := 10.
Definition ERR_THRUST_RANGE : Z := 20.
Definition ERR_SYSTEM_FAULT : Z := 30.

Definition ERROR_TABLE : list (Z * string) :=
  [ (ERR_OK,           "No Error"%string);
    (ERR_SENSOR_FAIL,  "Sensor Failure"%string);
    (ERR_THRUST_RANGE, "Thrust Out of Range"%string);
    (ERR_SYSTEM_FAULT, "System Fault"%string) ].

(** The [switch] the table expands to: the first [case] whose label equals
    [e] returns its message, [default] returns "Unknown". *)
Fixpoint switch_cases (cases : list (Z * string)) (e : Z) : string :=
  match cases with
  | [] => "Unknown"%string
  | (code, msg) :: rest => if e =? code then msg else switch_cases rest e
  end.

Definition error_to_str (e : Z) : string := switch_cases ERROR_TABLE e.

(** ** 9) Tiny guidance/control demo *)

Definition init_system (cfg : config) : M Z :=
  TRACE cfg "init_system" ;;
  ENABLE_SYSTEM cfg "init_system" ;;
  REG32_SENS_TEMP_set 42 ;;  (* seed *)
  ret 0.                     (* simulate success *)

(** [out_c] is the value of [*out_c] on entry; the result carries the
    status and the value of [*out_c] on exit. *)
Definition poll_temperature_c (cfg : config) (out_c : Z) : M (Z * Z) :=
  TRACE cfg "poll_temperature_c" ;;
  r <- READ_TEMP_RAW cfg ;;
  let (rc, raw) := r in
  if negb (rc =? 0) then ret (ERR_SENSOR_FAIL, out_c)
  else
    let out_c := raw in  (* pretend already degC *)
    LOGF cfg "poll_temperature_c" (MsgTemp out_c) ;;
    ret (ERR_OK, out_c).

(** [desired_n > (CFG_MAX_THRUST_N * 2)]: the product is computed in
    [int], then converted to unsigned for the comparison. *)
Definition command_thrust (cfg : config) (desired_n : Z) : M Z :=
  TRACE cfg "command_thrust" ;;
  if desired_n >? to_uint32 (to_int (CFG_MAX_THRUST_N cfg * 2)) then
    ret ERR_THRUST_RANGE  (* clearly insane input *)
  else
    SET_THRUST_N cfg "command_thrust" desired_n ;;
    ret ERR_OK.

(** Simple policy: map temperature to thrust. *)
Definition policy (temp_c : Z) : Z :=
  to_uint32 (if temp_c <? 30 then 3000 else 1500).

Definition run_control_loop_once (cfg : config) : M Z :=
  TRACE cfg "run_control_loop_once" ;;
  r <- poll_temperature_c cfg 0 ;;
  let (rc, temp_c) := r in
  if negb (rc =? ERR_OK) then ret rc
  else
    let desired := policy temp_c in
    rc <- command_thrust cfg desired ;;
    if negb (rc =? ERR_OK) then ret rc
    else
      c <- REG32 CTRL ;;
      if negb (Z.land c CTRL_FAULT =? 0) then ret ERR_SYSTEM_FAULT
      else ret ERR_OK.

(** ** 10) Main: tie it together *)

(** How the process ends. *)
Inductive outcome : Type :=
| Returned (status : Z)   (* [return] from [main] *)
| Exited (status : Z)     (* [exit(status)] *)
| Aborted.                (* a failed [assert] *)

Definition EXIT_FAILURE : Z := 1.

(** [SAFE_CALL(call)] followed by the rest [k] of the function. *)
Definition SAFE_CALL (cfg : config) (func call_text : string)
    (call : M Z) (k : M outcome) : M outcome :=
  _rc <- call ;;
  if negb (_rc =? 0) then
    LOGF cfg func (MsgSafeCallFailed call_text _rc) ;;
    ret (Exited EXIT_FAILURE)
  else k.

(** [ASSERT(x)] followed by the rest [k] of the function. *)
Definition ASSERT (cfg : config) (func x_text : string)
    (x : bool) (k : M outcome) : M outcome :=
  if CFG_ENABLE_ASSERTS cfg then
    if negb x then LOGF cfg func (MsgAssert x_text) ;; ret Aborted else k
  else k.

Definition report_error (rc : Z) : M unit :=
  fputs_stderr (ErrorLine rc (error_to_str rc)).

(** Mutate temp to exercise policy: [REG32(SENS_TEMP) += 5]. *)
Definition bump_temperature : M unit :=
  t <- REG32 SENS_TEMP ;; REG32_SENS_TEMP_set (t + 5).

(** The demo loop with [remaining] iterations left; [break] on error. *)
Fixpoint demo_loop (cfg : config) (remaining : nat) : M unit :=
  match remaining with
  | O => ret tt
  | S n =>
      rc <- run_control_loop_once cfg ;;
      if negb (rc =? ERR_OK) then report_error rc
      else bump_temperature ;; demo_loop cfg n
  end.

Definition main (cfg : config) : M outcome :=
  LOGF cfg "main" MsgBuild ;;
  SAFE_CALL cfg "main" "init_system()" (init_system cfg) (
  (* Self-checks *)
  ASSERT cfg "main" "(CFG_MAX_THRUST_N % 10) == 0"
    (CFG_MAX_THRUST_N cfg mod 10 =? 0) (
  (* Demo loop *)
  demo_loop cfg 3 ;;
  (* Exercise fault path *)
  SIGNAL_FAULT cfg "main" ;;
  rc <- run_control_loop_once cfg ;;
  (if negb (rc =? ERR_OK) then report_error rc else ret tt) ;;
  DISABLE_SYSTEM cfg "main" ;;
  ret (Returned 0))).

(** The value [SET_THRUST_N] stores: the request converted to [uint32_t],
    saturated at the cap. *)
Definition capped (cfg : config) (newton : Z) : Z :=
  if to_uint32 newton >? CFG_MAX_THRUST_N cfg
  then CFG_MAX_THRUST_N cfg else to_uint32 newton.

(** ** The demonstrated lifecycle as a sequence of operations *)

Inductive lifecycle_op : Type :=
| op_init_system
| op_ENABLE_SYSTEM (func : string)
| op_DISABLE_SYSTEM (func : string)
| op_SIGNAL_FAULT (func : string)
| op_poll_temperature_c (out_c : Z)
| op_SET_THRUST_N (func : string) (newton : Z)
| op_command_thrust (desired_n : Z)
| op_run_control_loop_once
| op_bump_temperature.

Definition perform (cfg : config) (o : lifecycle_op) (w : world) : world :=
  match o with
  | op_init_system => exec (init_system cfg) w
  | op_ENABLE_SYSTEM func => exec (ENABLE_SYSTEM cfg func) w
  | op_DISABLE_SYSTEM func => exec (DISABLE_SYSTEM cfg func) w
  | op_SIGNAL_FAULT func => exec (SIGNAL_FAULT cfg func) w
  | op_poll_temperature_c out_c => exec (poll_temperature_c cfg out_c) w
  | op_SET_THRUST_N func newton => exec (SET_THRUST_N cfg func newton) w
  | op_command_thrust desired_n => exec (command_thrust cfg desired_n) w
  | op_run_control_loop_once => exec (run_control_loop_once cfg) w
  | op_bump_temperature => exec bump_temperature w
  end.

Fixpoint perform_all (cfg : config) (ops : list lifecycle_op) (w : world)
  : world :=
  match ops with
  | [] => w
  | o :: rest => perform_all cfg rest (perform cfg o w)
  end.

(** ** What a caller observes of one control-loop call *)

Record observation : Type := Observed {
  seen_temp_c : Z;    (* what [poll_temperature_c] delivers in this state *)
  returned : Z;       (* status of [run_control_loop_once] *)
  thrust_after : Z    (* THRUST once the call is over *)
}.

Definition observe (cfg : config) (w : world) : observation :=
  Observed (snd (eval (poll_temperature_c cfg 0) w))
           (eval (run_control_loop_once cfg) w)
           (THRUST (HW (exec (run_control_loop_once cfg) w))).

(** [n] calls of the control loop, the caller adding 5 to SENS_TEMP between
    one call and the next. *)
Fixpoint demo_observations (cfg : config) (n : nat) (w : world)
  : list observation :=
  match n with
  | O => []
  | S n' =>
      observe cfg w ::
      demo_observations cfg n'
        (exec bump_temperature (exec (run_control_loop_once cfg) w))
  end.

(** ** What a run adds to the standard error stream *)

(** The lines [LOGF]/[TRACE] calls put on stderr: all of them when logs are
    compiled in, none when they are stripped. *)
Definition emitted (cfg : config) (lines : list stderr_line)
  : list stderr_line :=
  if CFG_ENABLE_LOGS cfg then lines else [].

(** The lines one [SET_THRUST_N] expansion inside [func] asks to log. *)
Definition SET_THRUST_N_lines (cfg : config) (func : string) (newton : Z)
  : list stderr_line :=
  if to_uint32 newton >? CFG_MAX_THRUST_N cfg then
    [ LogLine func (MsgThrustCapping (to_uint32 newton) (CFG_MAX_THRUST_N cfg));
      LogLine func (MsgThrustSet (CFG_MAX_THRUST_N cfg)) ]
  else [ LogLine func (MsgThrustSet (to_uint32 newton)) ].

(** The lines one control-loop call asks to log when it polls [temp_c]. *)
Definition run_once_lines (temp_c : Z) : list stderr_line :=
  [ TraceLine "run_control_loop_once";
    TraceLine "poll_temperature_c";
    LogLine "poll_temperature_c" (MsgTemp temp_c);
    TraceLine "command_thrust";
    LogLine "command_thrust" (MsgThrustSet (policy temp_c)) ].

(** ** Concrete runs *)

Definition ground : config := Config GROUND_BUILD CPU_RISCV.
Definition flight : config := Config FLIGHT_BUILD CPU_ARM.

Example main_ground_registers :
  HW (exec (main ground) world_init) = Regs 2 0 1500 57.
Proof. vm_compute. reflexivity. Qed.

Example main_flight_stderr :
  stderr (exec (main flight) world_init) =
  [ErrorLine 30 "System Fault"%string].
Proof. vm_compute. reflexivity. Qed.

Example main_returns_0 :
  eval (main ground) world_init = Returned 0.
Proof. vm_compute. reflexivity. Qed.

(** ** Integer conversion lemmas *)

Lemma to_uint32_small (z : Z) : uint32_range z -> to_uint32 z = z.
Proof. intros Hz. apply Z.mod_small. exact Hz. Qed.

Lemma to_uint32_range (z : Z) : uint32_range (to_uint32 z).
Proof.
  unfold uint32_range, to_uint32, UINT32_MODULUS.
  apply Z.mod_pos_bound. reflexivity.
Qed.

Lemma to_uint32_idem (z : Z) : to_uint32 (to_uint32 z) = to_uint32 z.
Proof. apply to_uint32_small, to_uint32_range. Qed.

Lemma to_int_small (z : Z) : 0 <= z < 2 ^ 31 -> to_int z = z.
Proof.
  intros Hz. unfold to_int, UINT32_MODULUS.
  rewrite Z.mod_small by lia.
  destruct (Z.ltb_spec z (2 ^ 31)); [reflexivity | lia].
Qed.

(** The cap is one of the two profile constants, so no conversion in which
    it takes part changes its value. *)
Lemma CFG_MAX_THRUST_N_cases (cfg : config) :
  CFG_MAX_THRUST_N cfg = 5000 \/ CFG_MAX_THRUST_N cfg = 4000.
Proof. unfold CFG_MAX_THRUST_N. destruct (build cfg); auto. Qed.

Lemma cap_to_uint32 (cfg : config) :
  to_uint32 (CFG_MAX_THRUST_N cfg) = CFG_MAX_THRUST_N cfg.
Proof. destruct (CFG_MAX_THRUST_N_cases cfg) as [H | H]; rewrite H; reflexivity. Qed.

Lemma twice_cap_converted (cfg : config) :
  to_uint32 (to_int (CFG_MAX_THRUST_N cfg * 2)) = 2 * CFG_MAX_THRUST_N cfg.
Proof. destruct (CFG_MAX_THRUST_N_cases cfg) as [H | H]; rewrite H; reflexivity. Qed.

(** The structural-limit gate [#if CFG_MAX_THRUST_N > 6000 / #error]. *)
Lemma cap_within_structural_limit (cfg : config) :
  0 < CFG_MAX_THRUST_N cfg <= 6000.
Proof. destruct (CFG_MAX_THRUST_N_cases cfg) as [H | H]; rewrite H; lia. Qed.

(** ** Bit-field lemmas for the FAULT bit *)

Lemma land_fault_to_uint32 (c : Z) :
  Z.land (to_uint32 c) CTRL_FAULT = Z.land c CTRL_FAULT.
Proof.
  unfold to_uint32, UINT32_MODULUS.
  rewrite <- Z.land_ones by lia.
  rewrite <- Z.land_assoc. reflexivity.
Qed.

Lemma land_fault_lor_enable (c : Z) :
  Z.land (Z.lor c CTRL_ENABLE) CTRL_FAULT = Z.land c CTRL_FAULT.
Proof.
  rewrite Z.land_lor_distr_l.
  change (Z.land CTRL_ENABLE CTRL_FAULT) with 0.
  apply Z.lor_0_r.
Qed.

Lemma land_fault_clear_enable (c : Z) :
  Z.land (Z.land c (to_uint32 (Z.lnot CTRL_ENABLE))) CTRL_FAULT =
  Z.land c CTRL_FAULT.
Proof. rewrite <- Z.land_assoc. reflexivity. Qed.

Lemma land_fault_lor_fault (c : Z) :
  Z.land (Z.lor c CTRL_FAULT) CTRL_FAULT = CTRL_FAULT.
Proof.
  apply Z.bits_inj'. intros n _.
  rewrite Z.land_spec, Z.lor_spec.
  destruct (Z.testbit c n), (Z.testbit CTRL_FAULT n); reflexivity.
Qed.

(** ** Effect of each operation on the register bank *)

Lemma HW_LOGF cfg func m w : HW (exec (LOGF cfg func m) w) = HW w.
Proof. unfold LOGF. destruct (CFG_ENABLE_LOGS cfg); reflexivity. Qed.

Lemma HW_TRACE cfg func w : HW (exec (TRACE cfg func) w) = HW w.
Proof. unfold TRACE. destruct (CFG_ENABLE_LOGS cfg); reflexivity. Qed.

Lemma exec_bind {A B} (c : M A) (k : A -> M B) (w : world) :
  exec (bind c k) w = exec (k (eval c w)) (exec c w).
Proof. unfold exec, eval, bind. destruct (c w). reflexivity. Qed.

Lemma eval_bind {A B} (c : M A) (k : A -> M B) (w : world) :
  eval (bind c k) w = eval (k (eval c w)) (exec c w).
Proof. unfold exec, eval, bind. destruct (c w). reflexivity. Qed.

Lemma exec_ret {A} (a : A) (w : world) : exec (ret a) w = w.
Proof. reflexivity. Qed.

Lemma eval_ret {A} (a : A) (w : world) : eval (ret a) w = a.
Proof. reflexivity. Qed.

Lemma HW_REG32_THRUST_set v w :
  HW (exec (REG32_THRUST_set v) w) =
  Regs (CTRL (HW w)) (STATUS (HW w)) (to_uint32 v) (SENS_TEMP (HW w)).
Proof. reflexivity. Qed.

Lemma HW_ENABLE_SYSTEM cfg func w :
  HW (exec (ENABLE_SYSTEM cfg func) w) =
  Regs (to_uint32 (Z.lor (CTRL (HW w)) CTRL_ENABLE))
       (STATUS (HW w)) (THRUST (HW w)) (SENS_TEMP (HW w)).
Proof. unfold ENABLE_SYSTEM. rewrite !exec_bind, HW_LOGF. reflexivity. Qed.

Lemma HW_DISABLE_SYSTEM cfg func w :
  HW (exec (DISABLE_SYSTEM cfg func) w) =
  Regs (to_uint32 (Z.land (CTRL (HW w)) (to_uint32 (Z.lnot CTRL_ENABLE))))
       (STATUS (HW w)) (THRUST (HW w)) (SENS_TEMP (HW w)).
Proof. unfold DISABLE_SYSTEM. rewrite !exec_bind, HW_LOGF. reflexivity. Qed.

Lemma HW_SIGNAL_FAULT cfg func w :
  HW (exec (SIGNAL_FAULT cfg func) w) =
  Regs (to_uint32 (Z.lor (CTRL (HW w)) CTRL_FAULT))
       (STATUS (HW w)) (THRUST (HW w)) (SENS_TEMP (HW w)).
Proof. unfold SIGNAL_FAULT. rewrite !exec_bind, HW_LOGF. reflexivity. Qed.

Lemma HW_SET_THRUST_N cfg func newton w :
  HW (exec (SET_THRUST_N cfg func newton) w) =
  Regs (CTRL (HW w)) (STATUS (HW w)) (capped cfg newton) (SENS_TEMP (HW w)).
Proof.
  unfold SET_THRUST_N, capped.
  rewrite !exec_bind, HW_LOGF, HW_REG32_THRUST_set, !cap_to_uint32.
  destruct (to_uint32 newton >? CFG_MAX_THRUST_N cfg).
  - rewrite eval_bind, exec_bind, exec_ret, eval_ret, HW_LOGF, cap_to_uint32.
    reflexivity.
  - rewrite exec_ret, eval_ret, to_uint32_idem. reflexivity.
Qed.

Lemma HW_init_system cfg w :
  HW (exec (init_system cfg) w) =
  Regs (to_uint32 (Z.lor (CTRL (HW w)) CTRL_ENABLE))
       (STATUS (HW w)) (THRUST (HW w)) 42.
Proof.
  unfold init_system.
  rewrite !exec_bind, exec_ret.
  unfold REG32_SENS_TEMP_set, exec at 1. cbn [snd HW].
  rewrite HW_ENABLE_SYSTEM, HW_TRACE. reflexivity.
Qed.

Lemma eval_init_system cfg w : eval (init_system cfg) w = 0.
Proof. unfold init_system. rewrite !eval_bind. reflexivity. Qed.

Lemma exec_REG32 name w : exec (REG32 name) w = w.
Proof. reflexivity. Qed.

Lemma eval_REG32 name w : eval (REG32 name) w = name (HW w).
Proof. reflexivity. Qed.

Lemma exec_READ_TEMP_RAW cfg w : exec (READ_TEMP_RAW cfg) w = w.
Proof. unfold READ_TEMP_RAW. destruct (cpu cfg); reflexivity. Qed.

Lemma eval_READ_TEMP_RAW cfg w :
  eval (READ_TEMP_RAW cfg) w = (0, to_int (SENS_TEMP (HW w))).
Proof. unfold READ_TEMP_RAW. destruct (cpu cfg); reflexivity. Qed.

Lemma HW_poll_temperature_c cfg out_c w :
  HW (exec (poll_temperature_c cfg out_c) w) = HW w.
Proof.
  unfold poll_temperature_c.
  rewrite !exec_bind, eval_READ_TEMP_RAW, exec_READ_TEMP_RAW.
  cbn [negb Z.eqb].
  rewrite exec_bind, exec_ret, HW_LOGF, HW_TRACE. reflexivity.
Qed.

Lemma eval_poll_temperature_c cfg out_c w :
  eval (poll_temperature_c cfg out_c) w =
  (ERR_OK, to_int (SENS_TEMP (HW w))).
Proof.
  unfold poll_temperature_c.
  rewrite !eval_bind, eval_READ_TEMP_RAW, exec_READ_TEMP_RAW.
  cbn [negb Z.eqb].
  rewrite eval_bind, eval_ret, HW_TRACE. reflexivity.
Qed.

Lemma HW_command_thrust cfg desired_n w :
  HW (exec (command_thrust cfg desired_n) w) =
  if desired_n >? 2 * CFG_MAX_THRUST_N cfg then HW w
  else Regs (CTRL (HW w)) (STATUS (HW w)) (capped cfg desired_n)
            (SENS_TEMP (HW w)).
Proof.
  unfold command_thrust. rewrite exec_bind, twice_cap_converted.
  destruct (desired_n >? 2 * CFG_MAX_THRUST_N cfg).
  - rewrite exec_ret. apply HW_TRACE.
  - rewrite exec_bind, exec_ret, HW_SET_THRUST_N, HW_TRACE. reflexivity.
Qed.

Lemma eval_command_thrust cfg desired_n w :
  eval (command_thrust cfg desired_n) w =
  if desired_n >? 2 * CFG_MAX_THRUST_N cfg then ERR_THRUST_RANGE else ERR_OK.
Proof.
  unfold command_thrust. rewrite eval_bind, twice_cap_converted.
  destruct (desired_n >? 2 * CFG_MAX_THRUST_N cfg).
  - reflexivity.
  - rewrite eval_bind. reflexivity.
Qed.

(** The policy only ever asks for 3000 or 1500, both below either cap and
    below the gross-range limit. *)
Lemma policy_cases (temp_c : Z) :
  (temp_c < 30 /\ policy temp_c = 3000) \/
  (30 <= temp_c /\ policy temp_c = 1500).
Proof.
  unfold policy. destruct (Z.ltb_spec temp_c 30); [left | right]; split;
    (assumption || reflexivity).
Qed.

Lemma policy_not_rejected cfg temp_c :
  (policy temp_c >? 2 * CFG_MAX_THRUST_N cfg) = false.
Proof.
  destruct (policy_cases temp_c) as [[_ H] | [_ H]]; rewrite H;
    destruct (CFG_MAX_THRUST_N_cases cfg) as [C | C]; rewrite C; reflexivity.
Qed.

Lemma policy_not_capped cfg temp_c : capped cfg (policy temp_c) = policy temp_c.
Proof.
  unfold capped.
  destruct (policy_cases temp_c) as [[_ H] | [_ H]]; rewrite H;
    destruct (CFG_MAX_THRUST_N_cases cfg) as [C | C]; rewrite C; reflexivity.
Qed.

Lemma HW_run_control_loop_once cfg w :
  HW (exec (run_control_loop_once cfg) w) =
  Regs (CTRL (HW w)) (STATUS (HW w))
       (policy (to_int (SENS_TEMP (HW w)))) (SENS_TEMP (HW w)).
Proof.
  unfold run_control_loop_once.
  rewrite !exec_bind, eval_poll_temperature_c. cbn [negb Z.eqb ERR_OK].
  rewrite exec_bind, eval_command_thrust, policy_not_rejected.
  cbn [negb Z.eqb ERR_OK]. rewrite exec_bind, exec_REG32, eval_REG32.
  match goal with
  | |- HW (exec (if ?b then _ else _) _) = _ => destruct b
  end; rewrite exec_ret, HW_command_thrust, policy_not_rejected,
         policy_not_capped, HW_poll_temperature_c, HW_TRACE; reflexivity.
Qed.

Lemma eval_run_control_loop_once cfg w :
  eval (run_control_loop_once cfg) w =
  if fault_is_set (HW w) then ERR_SYSTEM_FAULT else ERR_OK.
Proof.
  unfold run_control_loop_once.
  rewrite !eval_bind, eval_poll_temperature_c. cbn [negb Z.eqb ERR_OK].
  rewrite eval_bind, eval_command_thrust, policy_not_rejected.
  cbn [negb Z.eqb ERR_OK]. rewrite eval_bind, exec_REG32, eval_REG32.
  rewrite HW_command_thrust, policy_not_rejected. cbn [CTRL].
  rewrite HW_poll_temperature_c, HW_TRACE. unfold fault_is_set.
  destruct (negb _); reflexivity.
Qed.

(** ** The FAULT bit under each operation *)

Lemma fault_is_set_CTRL (hw hw' : hw_regs_t) :
  Z.land (CTRL hw') CTRL_FAULT = Z.land (CTRL hw) CTRL_FAULT ->
  fault_is_set hw' = fault_is_set hw.
Proof. unfold fault_is_set. intros E. rewrite E. reflexivity. Qed.

Lemma HW_bump_temperature w :
  HW (exec bump_temperature w) =
  Regs (CTRL (HW w)) (STATUS (HW w)) (THRUST (HW w))
       (to_uint32 (SENS_TEMP (HW w) + 5)).
Proof. reflexivity. Qed.

(** No operation other than [SIGNAL_FAULT] changes the FAULT bit. *)
Lemma perform_fault_bit cfg o w :
  (forall func, o <> op_SIGNAL_FAULT func) ->
  fault_is_set (HW (perform cfg o w)) = fault_is_set (HW w).
Proof.
  intros Hn. apply fault_is_set_CTRL.
  destruct o; cbn [perform].
  - rewrite HW_init_system. cbn [CTRL].
    rewrite land_fault_to_uint32. apply land_fault_lor_enable.
  - rewrite HW_ENABLE_SYSTEM. cbn [CTRL].
    rewrite land_fault_to_uint32. apply land_fault_lor_enable.
  - rewrite HW_DISABLE_SYSTEM. cbn [CTRL].
    rewrite land_fault_to_uint32. apply land_fault_clear_enable.
  - exfalso. apply (Hn func). reflexivity.
  - rewrite HW_poll_temperature_c. reflexivity.
  - rewrite HW_SET_THRUST_N. reflexivity.
  - rewrite HW_command_thrust.
    destruct (desired_n >? 2 * CFG_MAX_THRUST_N cfg); reflexivity.
  - rewrite HW_run_control_loop_once. reflexivity.
  - rewrite HW_bump_temperature. reflexivity.
Qed.

Lemma fault_is_set_after_SIGNAL_FAULT cfg func w :
  fault_is_set (HW (exec (SIGNAL_FAULT cfg func) w)) = true.
Proof.
  unfold fault_is_set. rewrite HW_SIGNAL_FAULT. cbn [CTRL].
  rewrite land_fault_to_uint32, land_fault_lor_fault. reflexivity.
Qed.

Lemma perform_keeps_fault cfg o w :
  fault_is_set (HW w) = true -> fault_is_set (HW (perform cfg o w)) = true.
Proof.
  intros Hf.
  destruct o;
    try (rewrite perform_fault_bit; [exact Hf | intros f; discriminate]).
  apply fault_is_set_after_SIGNAL_FAULT.
Qed.

Lemma perform_all_keeps_fault cfg ops :
  forall w, fault_is_set (HW w) = true ->
            fault_is_set (HW (perform_all cfg ops w)) = true.
Proof.
  induction ops as [| o rest IH]; intros w Hf; cbn [perform_all].
  - exact Hf.
  - apply IH, perform_keeps_fault, Hf.
Qed.

(** No operation takes a register out of the [uint32_t] range. *)
Lemma perform_regs_in_range cfg o w :
  regs_in_range (HW w) -> regs_in_range (HW (perform cfg o w)).
Proof.
  unfold regs_in_range. intros (Hc & Hs & Ht & Hm).
  assert (Hcap : forall n, uint32_range (capped cfg n)).
  { intros n. unfold capped.
    destruct (to_uint32 n >? CFG_MAX_THRUST_N cfg).
    - pose proof (cap_within_structural_limit cfg).
      unfold uint32_range, UINT32_MODULUS. lia.
    - apply to_uint32_range. }
  destruct o; cbn [perform];
    rewrite ?HW_init_system, ?HW_ENABLE_SYSTEM, ?HW_DISABLE_SYSTEM,
      ?HW_SIGNAL_FAULT, ?HW_poll_temperature_c, ?HW_SET_THRUST_N,
      ?HW_command_thrust, ?HW_run_control_loop_once, ?HW_bump_temperature;
    try match goal with
        | |- context [if ?b then _ else _] => destruct b
        end;
    cbn [CTRL STATUS THRUST SENS_TEMP];
    refine (conj _ (conj _ (conj _ _)));
    auto using to_uint32_range.
  - unfold uint32_range, UINT32_MODULUS. lia.
  - destruct (policy_cases (to_int (SENS_TEMP (HW w)))) as [[_ E] | [_ E]];
    rewrite E; unfold uint32_range, UINT32_MODULUS; lia.
Qed.

(** * Properties of the register bank and the control loop *)

(** C1. Whatever value is requested, once [SET_THRUST_N] has run the THRUST
    register holds at most the configured maximum-thrust cap. *)
Theorem SET_THRUST_N_within_cap (cfg : config) (func : string) (r : Z)
    (w : world) :
  THRUST (HW (exec (SET_THRUST_N cfg func r) w)) <= CFG_MAX_THRUST_N cfg.
Proof.
  rewrite HW_SET_THRUST_N. cbn [THRUST]. unfold capped.
  rewrite Z.gtb_ltb.
  destruct (Z.ltb_spec (CFG_MAX_THRUST_N cfg) (to_uint32 r)); lia.
Qed.

(** C2. A request above twice the cap makes [command_thrust] return
    [ERR_THRUST_RANGE] and leaves the register bank, THRUST included,
    exactly as it was. *)
Theorem command_thrust_gross_reject (cfg : config) (r : Z) (w : world) :
  r > 2 * CFG_MAX_THRUST_N cfg ->
  eval (command_thrust cfg r) w = ERR_THRUST_RANGE /\
  HW (exec (command_thrust cfg r) w) = HW w.
Proof.
  intros Hr.
  rewrite eval_command_thrust, HW_command_thrust, Z.gtb_ltb.
  destruct (Z.ltb_spec (2 * CFG_MAX_THRUST_N cfg) r); [split; reflexivity | lia].
Qed.

Lemma command_thrust_gross_reject_witness :
  8001 > 2 * CFG_MAX_THRUST_N ground /\
  eval (command_thrust ground 8001) world_init = ERR_THRUST_RANGE /\
  HW (exec (command_thrust ground 8001) world_init) = HW world_init.
Proof.
  assert (Hgt : 8001 > 2 * CFG_MAX_THRUST_N ground) by (vm_compute; reflexivity).
  split; [exact Hgt |].
  exact (command_thrust_gross_reject ground 8001 world_init Hgt).
Defined.

(** C3. A request above the cap but at most twice the cap is accepted:
    [command_thrust] returns [ERR_OK] and THRUST ends up equal to the cap. *)
Theorem command_thrust_clamps (cfg : config) (r : Z) (w : world) :
  CFG_MAX_THRUST_N cfg < r <= 2 * CFG_MAX_THRUST_N cfg ->
  eval (command_thrust cfg r) w = ERR_OK /\
  THRUST (HW (exec (command_thrust cfg r) w)) = CFG_MAX_THRUST_N cfg.
Proof.
  intros [Hlo Hhi].
  pose proof (cap_within_structural_limit cfg) as Hcap.
  rewrite eval_command_thrust, HW_command_thrust, Z.gtb_ltb.
  destruct (Z.ltb_spec (2 * CFG_MAX_THRUST_N cfg) r); [lia |].
  split; [reflexivity |]. cbn [THRUST]. unfold capped.
  rewrite to_uint32_small by (unfold uint32_range, UINT32_MODULUS; lia).
  rewrite Z.gtb_ltb.
  destruct (Z.ltb_spec (CFG_MAX_THRUST_N cfg) r); [reflexivity | lia].
Qed.

Lemma command_thrust_clamps_witness :
  CFG_MAX_THRUST_N ground < 8000 <= 2 * CFG_MAX_THRUST_N ground /\
  eval (command_thrust ground 8000) world_init = ERR_OK /\
  THRUST (HW (exec (command_thrust ground 8000) world_init)) =
  CFG_MAX_THRUST_N ground.
Proof.
  assert (H : CFG_MAX_THRUST_N ground < 8000 <= 2 * CFG_MAX_THRUST_N ground)
    by (vm_compute; split; [reflexivity | discriminate]).
  split; [exact H |].
  exact (command_thrust_clamps ground 8000 world_init H).
Defined.

(** C4. A request that does not exceed the cap is written to THRUST
    verbatim by [SET_THRUST_N]. *)
Theorem SET_THRUST_N_exact (cfg : config) (func : string) (r : Z)
    (w : world) :
  0 <= r <= CFG_MAX_THRUST_N cfg ->
  THRUST (HW (exec (SET_THRUST_N cfg func r) w)) = r.
Proof.
  intros [Hlo Hhi].
  pose proof (cap_within_structural_limit cfg) as Hcap.
  rewrite HW_SET_THRUST_N. cbn [THRUST]. unfold capped.
  rewrite to_uint32_small by (unfold uint32_range, UINT32_MODULUS; lia).
  rewrite Z.gtb_ltb.
  destruct (Z.ltb_spec (CFG_MAX_THRUST_N cfg) r); [lia | reflexivity].
Qed.

Lemma SET_THRUST_N_exact_witness :
  0 <= 4000 <= CFG_MAX_THRUST_N ground /\
  THRUST (HW (exec (SET_THRUST_N ground "command_thrust" 4000) world_init)) =
  4000.
Proof.
  assert (H : 0 <= 4000 <= CFG_MAX_THRUST_N ground)
    by (vm_compute; split; discriminate).
  split; [exact H |].
  exact (SET_THRUST_N_exact ground "command_thrust" 4000 world_init H).
Defined.

(** C5. When [SIGNAL_FAULT] has run before [run_control_loop_once]
    (directly before, or with any lifecycle operations in between), the
    temperature poll and the thrust command of that call both succeed, the
    call returns [ERR_SYSTEM_FAULT], and THRUST holds the value the policy
    commanded for the temperature polled in that same call. *)
Theorem run_once_after_fault (cfg : config) (func : string)
    (ops : list lifecycle_op) (w : world) :
  let w1 := perform_all cfg ops (exec (SIGNAL_FAULT cfg func) w) in
  let temp_c := snd (eval (poll_temperature_c cfg 0) w1) in
  fst (eval (poll_temperature_c cfg 0) w1) = ERR_OK /\
  eval (command_thrust cfg (policy temp_c)) w1 = ERR_OK /\
  eval (run_control_loop_once cfg) w1 = ERR_SYSTEM_FAULT /\
  THRUST (HW (exec (run_control_loop_once cfg) w1)) = policy temp_c.
Proof.
  intros w1 temp_c. subst temp_c.
  rewrite eval_poll_temperature_c. cbn [fst snd].
  rewrite eval_command_thrust, policy_not_rejected.
  rewrite eval_run_control_loop_once, HW_run_control_loop_once.
  subst w1.
  rewrite perform_all_keeps_fault by apply fault_is_set_after_SIGNAL_FAULT.
  repeat split; reflexivity.
Qed.

(** C6. Once [SIGNAL_FAULT] has set the FAULT bit of CTRL, the bit is still
    set after any sequence of lifecycle operations (initialisation, enable,
    disable, temperature poll, thrust write, thrust command, control-loop
    call, temperature increment, further fault signals). *)
Theorem fault_latched (cfg : config) (func : string)
    (ops : list lifecycle_op) (w : world) :
  fault_is_set (HW (perform_all cfg ops (exec (SIGNAL_FAULT cfg func) w))) =
  true.
Proof.
  apply perform_all_keeps_fault, fault_is_set_after_SIGNAL_FAULT.
Qed.

(** C7, as stated: false.  [init_system] only ORs the ENABLE bit into CTRL,
    so a FAULT bit that is set when it is called is still set afterwards. *)
Lemma init_system_keeps_latent_fault :
  ~ (forall (cfg : config) (w : world),
       fault_is_set (HW (exec (init_system cfg) w)) = false).
Proof.
  intros H.
  specialize (H ground (exec (SIGNAL_FAULT ground "main") world_init)).
  vm_compute in H. discriminate H.
Qed.

(** C7, amended.  [init_system] never changes the FAULT bit: in every
    state [fault_is_set] answers after the call what it answered before.
    Hence from every state whose FAULT bit is clear, the power-on state
    [HW = {0}] among them, the FAULT bit is clear right after
    [init_system]. *)
Theorem init_system_fault_clear (cfg : config) (w : world) :
  fault_is_set (HW (exec (init_system cfg) w)) = fault_is_set (HW w) /\
  (fault_is_set (HW w) = false ->
   fault_is_set (HW (exec (init_system cfg) w)) = false).
Proof.
  assert (E : fault_is_set (HW (exec (init_system cfg) w)) =
              fault_is_set (HW w)).
  { change (exec (init_system cfg) w) with (perform cfg op_init_system w).
    apply perform_fault_bit. intros f. discriminate. }
  split; [exact E |].
  intros Hf. rewrite E. exact Hf.
Qed.

Lemma init_system_fault_clear_witness :
  fault_is_set (HW world_init) = false /\
  fault_is_set (HW (exec (init_system ground) world_init)) = false.
Proof.
  assert (H : fault_is_set (HW world_init) = false) by reflexivity.
  split; [exact H |].
  exact (proj2 (init_system_fault_clear ground world_init) H).
Defined.

(** C8. With cap = 4000, SENS_TEMP = 42 and no fault signalled, four
    control-loop calls with SENS_TEMP raised by 5 between calls poll the
    temperatures 42, 47, 52, 57 (all at least 30), each leaves THRUST at the
    commanded 1500, and each returns [ERR_OK]. *)
Theorem demo_four_runs_ok (cfg : config) (w : world) :
  CFG_MAX_THRUST_N cfg = 4000 ->
  SENS_TEMP (HW w) = 42 ->
  fault_is_set (HW w) = false ->
  demo_observations cfg 4 w =
    [ Observed 42 ERR_OK 1500; Observed 47 ERR_OK 1500;
      Observed 52 ERR_OK 1500; Observed 57 ERR_OK 1500 ] /\
  Forall (fun o => 30 <= seen_temp_c o /\ policy (seen_temp_c o) = 1500)
         (demo_observations cfg 4 w).
Proof.
  intros _ Ht Hf.
  assert (Hstep : forall w0 t,
             SENS_TEMP (HW w0) = t -> 30 <= t < 1000 ->
             fault_is_set (HW w0) = false ->
             let w1 := exec bump_temperature
                         (exec (run_control_loop_once cfg) w0) in
             observe cfg w0 = Observed t ERR_OK 1500 /\
             SENS_TEMP (HW w1) = t + 5 /\ fault_is_set (HW w1) = false).
  { intros w0 t Et Hr Hf0. cbn zeta. unfold observe.
    rewrite eval_poll_temperature_c, eval_run_control_loop_once, Hf0.
    rewrite HW_bump_temperature, HW_run_control_loop_once, Et.
    cbn [snd THRUST SENS_TEMP CTRL fault_is_set].
    rewrite to_int_small by lia.
    destruct (policy_cases t) as [[Hlt _] | [_ Ep]]; [lia |]. rewrite Ep.
    repeat split.
    - apply to_uint32_small. unfold uint32_range, UINT32_MODULUS. lia.
    - exact Hf0. }
  assert (E : demo_observations cfg 4 w =
    [ Observed 42 ERR_OK 1500; Observed 47 ERR_OK 1500;
      Observed 52 ERR_OK 1500; Observed 57 ERR_OK 1500 ]).
  { cbn [demo_observations].
    destruct (Hstep w 42 Ht ltac:(lia) Hf) as (O1 & T1 & F1).
    destruct (Hstep _ (42 + 5) T1 ltac:(lia) F1) as (O2 & T2 & F2).
    destruct (Hstep _ (42 + 5 + 5) T2 ltac:(lia) F2) as (O3 & T3 & F3).
    destruct (Hstep _ (42 + 5 + 5 + 5) T3 ltac:(lia) F3) as (O4 & _ & _).
    rewrite O1, O2, O3, O4. reflexivity. }
  split; [exact E |].
  rewrite E. repeat constructor; cbn [seen_temp_c]; lia.
Qed.

Lemma demo_four_runs_ok_witness :
  let w := exec (init_system ground) world_init in
  CFG_MAX_THRUST_N ground = 4000 /\ SENS_TEMP (HW w) = 42 /\
  fault_is_set (HW w) = false /\
  demo_observations ground 4 w =
    [ Observed 42 ERR_OK 1500; Observed 47 ERR_OK 1500;
      Observed 52 ERR_OK 1500; Observed 57 ERR_OK 1500 ].
Proof.
  intros w.
  assert (Hc : CFG_MAX_THRUST_N ground = 4000) by reflexivity.
  assert (Ht : SENS_TEMP (HW w) = 42) by reflexivity.
  assert (Hf : fault_is_set (HW w) = false) by reflexivity.
  split; [exact Hc | split; [exact Ht | split; [exact Hf |]]].
  exact (proj1 (demo_four_runs_ok ground w Hc Ht Hf)).
Defined.

(** C9. The error-message lookup is total: the four codes of the
    enumeration map to their fixed, non-empty messages, and every other
    integer maps to "Unknown". *)
Theorem error_to_str_total :
  map fst ERROR_TABLE =
    [ERR_OK; ERR_SENSOR_FAIL; ERR_THRUST_RANGE; ERR_SYSTEM_FAULT] /\
  error_to_str ERR_OK = "No Error"%string /\
  error_to_str ERR_SENSOR_FAIL = "Sensor Failure"%string /\
  error_to_str ERR_THRUST_RANGE = "Thrust Out of Range"%string /\
  error_to_str ERR_SYSTEM_FAULT = "System Fault"%string /\
  (forall e : Z, In e (map fst ERROR_TABLE) ->
                 error_to_str e <> EmptyString) /\
  (forall e : Z, ~ In e (map fst ERROR_TABLE) ->
                 error_to_str e = "Unknown"%string).
Proof.
  repeat (split; [reflexivity |]). split.
  - intros e He. cbn in He.
    destruct He as [<- | [<- | [<- | [<- | []]]]]; discriminate.
  - intros e He.
    unfold error_to_str, ERROR_TABLE. cbn [switch_cases].
    destruct (Z.eqb_spec e ERR_OK) as [-> | _];
      [exfalso; apply He; cbn; auto |].
    destruct (Z.eqb_spec e ERR_SENSOR_FAIL) as [-> | _];
      [exfalso; apply He; cbn; auto |].
    destruct (Z.eqb_spec e ERR_THRUST_RANGE) as [-> | _];
      [exfalso; apply He; cbn; auto |].
    destruct (Z.eqb_spec e ERR_SYSTEM_FAULT) as [-> | _];
      [exfalso; apply He; cbn; auto 6 |].
    reflexivity.
Qed.

Lemma error_to_str_total_witness :
  In ERR_THRUST_RANGE (map fst ERROR_TABLE) /\
  error_to_str ERR_THRUST_RANGE <> EmptyString /\
  ~ In 7 (map fst ERROR_TABLE) /\
  error_to_str 7 = "Unknown"%string.
Proof.
  destruct error_to_str_total as (_ & _ & _ & _ & _ & Hin & Hout).
  assert (H20 : In ERR_THRUST_RANGE (map fst ERROR_TABLE))
    by (cbn; auto).
  assert (H7 : ~ In 7 (map fst ERROR_TABLE)).
  { cbn. intros [H | [H | [H | [H | []]]]]; discriminate H. }
  split; [exact H20 | split; [exact (Hin _ H20) | split; [exact H7 |]]].
  exact (Hout 7 H7).
Defined.

(** C10. [run_control_loop_once] writes no register other than THRUST:
    CTRL, STATUS and SENS_TEMP are the same after the call as before. *)
Theorem run_once_frame (cfg : config) (w : world) :
  let w' := exec (run_control_loop_once cfg) w in
  CTRL (HW w') = CTRL (HW w) /\
  STATUS (HW w') = STATUS (HW w) /\
  SENS_TEMP (HW w') = SENS_TEMP (HW w).
Proof.
  cbn zeta. rewrite HW_run_control_loop_once. repeat split.
Qed.

(** * Further properties of the program *)

(** ** The standard error stream under each operation *)

Lemma emitted_app cfg l1 l2 :
  emitted cfg (l1 ++ l2) = emitted cfg l1 ++ emitted cfg l2.
Proof. unfold emitted. destruct (CFG_ENABLE_LOGS cfg); reflexivity. Qed.

Lemma stderr_LOGF cfg func m w :
  stderr (exec (LOGF cfg func m) w) = stderr w ++ emitted cfg [LogLine func m].
Proof.
  unfold LOGF, emitted. destruct (CFG_ENABLE_LOGS cfg); cbn.
  - reflexivity.
  - symmetry. apply app_nil_r.
Qed.

Lemma stderr_TRACE cfg func w :
  stderr (exec (TRACE cfg func) w) = stderr w ++ emitted cfg [TraceLine func].
Proof.
  unfold TRACE, emitted. destruct (CFG_ENABLE_LOGS cfg); cbn.
  - reflexivity.
  - symmetry. apply app_nil_r.
Qed.

Lemma stderr_REG32_CTRL_set v w : stderr (exec (REG32_CTRL_set v) w) = stderr w.
Proof. reflexivity. Qed.

Lemma stderr_REG32_THRUST_set v w :
  stderr (exec (REG32_THRUST_set v) w) = stderr w.
Proof. reflexivity. Qed.

Lemma stderr_REG32_SENS_TEMP_set v w :
  stderr (exec (REG32_SENS_TEMP_set v) w) = stderr w.
Proof. reflexivity. Qed.

Lemma stderr_bump_temperature w : stderr (exec bump_temperature w) = stderr w.
Proof. reflexivity. Qed.

Lemma stderr_report_error rc w :
  stderr (exec (report_error rc) w) =
  stderr w ++ [ErrorLine rc (error_to_str rc)].
Proof. reflexivity. Qed.

Lemma HW_report_error rc w : HW (exec (report_error rc) w) = HW w.
Proof. reflexivity. Qed.

Lemma stderr_ENABLE_SYSTEM cfg func w :
  stderr (exec (ENABLE_SYSTEM cfg func) w) =
  stderr w ++ emitted cfg [LogLine func MsgSystemEnabled].
Proof.
  unfold ENABLE_SYSTEM.
  rewrite !exec_bind, stderr_LOGF, stderr_REG32_CTRL_set, exec_REG32.
  reflexivity.
Qed.

Lemma stderr_DISABLE_SYSTEM cfg func w :
  stderr (exec (DISABLE_SYSTEM cfg func) w) =
  stderr w ++ emitted cfg [LogLine func MsgSystemDisabled].
Proof.
  unfold DISABLE_SYSTEM.
  rewrite !exec_bind, stderr_LOGF, stderr_REG32_CTRL_set, exec_REG32.
  reflexivity.
Qed.

Lemma stderr_SIGNAL_FAULT cfg func w :
  stderr (exec (SIGNAL_FAULT cfg func) w) =
  stderr w ++ emitted cfg [LogLine func MsgFaultSignaled].
Proof.
  unfold SIGNAL_FAULT.
  rewrite !exec_bind, stderr_LOGF, stderr_REG32_CTRL_set, exec_REG32.
  reflexivity.
Qed.

Lemma stderr_SET_THRUST_N cfg func newton w :
  stderr (exec (SET_THRUST_N cfg func newton) w) =
  stderr w ++ emitted cfg (SET_THRUST_N_lines cfg func newton).
Proof.
  unfold SET_THRUST_N, SET_THRUST_N_lines.
  rewrite !exec_bind, stderr_LOGF, stderr_REG32_THRUST_set, !cap_to_uint32.
  destruct (to_uint32 newton >? CFG_MAX_THRUST_N cfg).
  - rewrite eval_bind, exec_bind, exec_ret, eval_ret, stderr_LOGF.
    rewrite <- app_assoc, <- emitted_app. reflexivity.
  - rewrite exec_ret, eval_ret. reflexivity.
Qed.

Lemma stderr_init_system cfg w :
  stderr (exec (init_system cfg) w) =
  stderr w ++ emitted cfg [ TraceLine "init_system";
                            LogLine "init_system" MsgSystemEnabled ].
Proof.
  unfold init_system.
  rewrite !exec_bind, exec_ret, stderr_REG32_SENS_TEMP_set.
  rewrite stderr_ENABLE_SYSTEM, stderr_TRACE.
  rewrite <- app_assoc, <- emitted_app. reflexivity.
Qed.

Lemma stderr_poll_temperature_c cfg out_c w :
  stderr (exec (poll_temperature_c cfg out_c) w) =
  stderr w ++
  emitted cfg [ TraceLine "poll_temperature_c";
                LogLine "poll_temperature_c"
                        (MsgTemp (to_int (SENS_TEMP (HW w)))) ].
Proof.
  unfold poll_temperature_c.
  rewrite !exec_bind, eval_READ_TEMP_RAW, exec_READ_TEMP_RAW.
  cbn [negb Z.eqb].
  rewrite exec_bind, exec_ret, stderr_LOGF, stderr_TRACE, HW_TRACE.
  rewrite <- app_assoc, <- emitted_app. reflexivity.
Qed.

Lemma stderr_command_thrust cfg desired_n w :
  stderr (exec (command_thrust cfg desired_n) w) =
  stderr w ++
  emitted cfg (TraceLine "command_thrust" ::
               if desired_n >? 2 * CFG_MAX_THRUST_N cfg then []
               else SET_THRUST_N_lines cfg "command_thrust" desired_n).
Proof.
  unfold command_thrust. rewrite exec_bind, twice_cap_converted.
  destruct (desired_n >? 2 * CFG_MAX_THRUST_N cfg).
  - rewrite exec_ret. apply stderr_TRACE.
  - rewrite exec_bind, exec_ret, stderr_SET_THRUST_N, stderr_TRACE.
    rewrite <- app_assoc, <- emitted_app. reflexivity.
Qed.

Lemma SET_THRUST_N_lines_policy cfg func temp_c :
  SET_THRUST_N_lines cfg func (policy temp_c) =
  [LogLine func (MsgThrustSet (policy temp_c))].
Proof.
  unfold SET_THRUST_N_lines.
  destruct (policy_cases temp_c) as [[_ H] | [_ H]]; rewrite H;
    destruct (CFG_MAX_THRUST_N_cases cfg) as [C | C]; rewrite C; reflexivity.
Qed.

Lemma stderr_run_control_loop_once cfg w :
  stderr (exec (run_control_loop_once cfg) w) =
  stderr w ++ emitted cfg (run_once_lines (to_int (SENS_TEMP (HW w)))).
Proof.
  unfold run_control_loop_once.
  rewrite !exec_bind, eval_poll_temperature_c. cbn [negb Z.eqb ERR_OK].
  rewrite exec_bind, eval_command_thrust, policy_not_rejected.
  cbn [negb Z.eqb ERR_OK]. rewrite exec_bind, exec_REG32, eval_REG32.
  match goal with
  | |- stderr (exec (if ?b then _ else _) _) = _ => destruct b
  end; rewrite exec_ret, stderr_command_thrust, policy_not_rejected,
         SET_THRUST_N_lines_policy, stderr_poll_temperature_c,
         stderr_TRACE, !HW_TRACE;
    rewrite <- !app_assoc, <- !emitted_app; reflexivity.
Qed.

(** ** Bits of CTRL *)

Lemma testbit_to_uint32 (z n : Z) :
  0 <= n < 32 -> Z.testbit (to_uint32 z) n = Z.testbit z n.
Proof.
  intros Hn. unfold to_uint32, UINT32_MODULUS.
  apply Z.mod_pow2_bits_low. lia.
Qed.

Lemma testbit_CTRL_ENABLE (n : Z) : Z.testbit CTRL_ENABLE n = (n =? 0).
Proof.
  change CTRL_ENABLE with (2 ^ 0).
  rewrite Z.pow2_bits_eqb by lia. apply Z.eqb_sym.
Qed.

Lemma testbit_CTRL_FAULT (n : Z) : Z.testbit CTRL_FAULT n = (n =? 1).
Proof.
  change CTRL_FAULT with (2 ^ 1).
  rewrite Z.pow2_bits_eqb by lia. apply Z.eqb_sym.
Qed.

Lemma testbit_not_CTRL_ENABLE (n : Z) :
  0 <= n < 32 ->
  Z.testbit (to_uint32 (Z.lnot CTRL_ENABLE)) n = negb (n =? 0).
Proof.
  intros Hn.
  rewrite testbit_to_uint32, Z.lnot_spec, testbit_CTRL_ENABLE by lia.
  reflexivity.
Qed.

Lemma testbit_high_to_uint32 (z n : Z) :
  32 <= n -> Z.testbit (to_uint32 z) n = false.
Proof.
  intros Hn. unfold to_uint32, UINT32_MODULUS.
  apply Z.mod_pow2_bits_high. lia.
Qed.

(** Two stored register values are equal as soon as their low 32 bits are. *)
Lemma to_uint32_eq_bits (a b : Z) :
  (forall n, 0 <= n < 32 -> Z.testbit a n = Z.testbit b n) ->
  to_uint32 a = to_uint32 b.
Proof.
  intros H. apply Z.bits_inj'. intros n Hn.
  destruct (Z.lt_ge_cases n 32) as [Hlt | Hge].
  - rewrite !testbit_to_uint32 by lia. apply H. lia.
  - rewrite !testbit_high_to_uint32 by lia. reflexivity.
Qed.

(** X1. [ENABLE_SYSTEM] sets bit 0 of CTRL and keeps each of the other 31
    bits; no other register changes. *)
Theorem ENABLE_SYSTEM_bits (cfg : config) (func : string) (w : world)
    (n : Z) :
  0 <= n < 32 ->
  let hw' := HW (exec (ENABLE_SYSTEM cfg func) w) in
  Z.testbit (CTRL hw') n = (n =? 0) || Z.testbit (CTRL (HW w)) n /\
  STATUS hw' = STATUS (HW w) /\ THRUST hw' = THRUST (HW w) /\
  SENS_TEMP hw' = SENS_TEMP (HW w).
Proof.
  intros Hn. cbn zeta. rewrite HW_ENABLE_SYSTEM. cbn [CTRL STATUS THRUST SENS_TEMP].
  rewrite testbit_to_uint32, Z.lor_spec, testbit_CTRL_ENABLE by lia.
  rewrite orb_comm. repeat split.
Qed.

Lemma ENABLE_SYSTEM_bits_witness :
  0 <= 0 < 32 /\
  Z.testbit (CTRL (HW (exec (ENABLE_SYSTEM ground "init_system") world_init))) 0
  = true.
Proof.
  assert (H : 0 <= 0 < 32) by lia.
  split; [exact H |].
  exact (proj1 (ENABLE_SYSTEM_bits ground "init_system" world_init 0 H)).
Defined.

(** X2. [DISABLE_SYSTEM] clears bit 0 of CTRL and keeps each of the other 31
    bits, the FAULT bit among them; no other register changes. *)
Theorem DISABLE_SYSTEM_bits (cfg : config) (func : string) (w : world)
    (n : Z) :
  0 <= n < 32 ->
  let hw' := HW (exec (DISABLE_SYSTEM cfg func) w) in
  Z.testbit (CTRL hw') n = negb (n =? 0) && Z.testbit (CTRL (HW w)) n /\
  STATUS hw' = STATUS (HW w) /\ THRUST hw' = THRUST (HW w) /\
  SENS_TEMP hw' = SENS_TEMP (HW w).
Proof.
  intros Hn. cbn zeta. rewrite HW_DISABLE_SYSTEM. cbn [CTRL STATUS THRUST SENS_TEMP].
  rewrite testbit_to_uint32, Z.land_spec, testbit_not_CTRL_ENABLE by lia.
  rewrite andb_comm. repeat split.
Qed.

Lemma DISABLE_SYSTEM_bits_witness :
  let w := exec (SIGNAL_FAULT ground "main")
             (exec (init_system ground) world_init) in
  0 <= 1 < 32 /\
  Z.testbit (CTRL (HW (exec (DISABLE_SYSTEM ground "main") w))) 1 = true.
Proof.
  intros w.
  assert (H : 0 <= 1 < 32) by lia.
  split; [exact H |].
  exact (proj1 (DISABLE_SYSTEM_bits ground "main" w 1 H)).
Defined.

(** X3. [SIGNAL_FAULT] sets bit 1 of CTRL and keeps each of the other 31
    bits, the ENABLE bit among them; no other register changes. *)
Theorem SIGNAL_FAULT_bits (cfg : config) (func : string) (w : world)
    (n : Z) :
  0 <= n < 32 ->
  let hw' := HW (exec (SIGNAL_FAULT cfg func) w) in
  Z.testbit (CTRL hw') n = (n =? 1) || Z.testbit (CTRL (HW w)) n /\
  STATUS hw' = STATUS (HW w) /\ THRUST hw' = THRUST (HW w) /\
  SENS_TEMP hw' = SENS_TEMP (HW w).
Proof.
  intros Hn. cbn zeta. rewrite HW_SIGNAL_FAULT. cbn [CTRL STATUS THRUST SENS_TEMP].
  rewrite testbit_to_uint32, Z.lor_spec, testbit_CTRL_FAULT by lia.
  rewrite orb_comm. repeat split.
Qed.

Lemma SIGNAL_FAULT_bits_witness :
  let w := exec (init_system ground) world_init in
  0 <= 0 < 32 /\
  Z.testbit (CTRL (HW (exec (SIGNAL_FAULT ground "main") w))) 0 = true.
Proof.
  intros w.
  assert (H : 0 <= 0 < 32) by lia.
  split; [exact H |].
  exact (proj1 (SIGNAL_FAULT_bits ground "main" w 0 H)).
Defined.

(** X4. On the ENABLE bit the last writer wins: disabling after enabling
    leaves the register bank as disabling alone does, and enabling after
    disabling leaves it as enabling alone does. *)
Theorem ENABLE_DISABLE_last_wins (cfg : config) (f g : string) (w : world) :
  HW (exec (DISABLE_SYSTEM cfg g) (exec (ENABLE_SYSTEM cfg f) w)) =
    HW (exec (DISABLE_SYSTEM cfg g) w) /\
  HW (exec (ENABLE_SYSTEM cfg g) (exec (DISABLE_SYSTEM cfg f) w)) =
    HW (exec (ENABLE_SYSTEM cfg g) w).
Proof.
  rewrite !HW_DISABLE_SYSTEM, !HW_ENABLE_SYSTEM, !HW_DISABLE_SYSTEM.
  cbn [CTRL STATUS THRUST SENS_TEMP].
  split; f_equal; apply to_uint32_eq_bits; intros n Hn.
  - rewrite !Z.land_spec, testbit_to_uint32, Z.lor_spec,
      testbit_CTRL_ENABLE, testbit_not_CTRL_ENABLE by lia.
    destruct (n =? 0), (Z.testbit (CTRL (HW w)) n); reflexivity.
  - rewrite !Z.lor_spec, testbit_to_uint32, Z.land_spec,
      testbit_CTRL_ENABLE, testbit_not_CTRL_ENABLE by lia.
    destruct (n =? 0), (Z.testbit (CTRL (HW w)) n); reflexivity.
Qed.

(** ** Thrust writes *)

Lemma capped_within_cap cfg newton : capped cfg newton <= CFG_MAX_THRUST_N cfg.
Proof.
  unfold capped. rewrite Z.gtb_ltb.
  destruct (Z.ltb_spec (CFG_MAX_THRUST_N cfg) (to_uint32 newton)); lia.
Qed.

Lemma policy_within_cap cfg temp_c : policy temp_c <= CFG_MAX_THRUST_N cfg.
Proof.
  rewrite <- (policy_not_capped cfg). apply capped_within_cap.
Qed.

Lemma perform_keeps_thrust_cap cfg o w :
  THRUST (HW w) <= CFG_MAX_THRUST_N cfg ->
  THRUST (HW (perform cfg o w)) <= CFG_MAX_THRUST_N cfg.
Proof.
  intros Hw.
  destruct o; cbn [perform];
    rewrite ?HW_init_system, ?HW_ENABLE_SYSTEM, ?HW_DISABLE_SYSTEM,
      ?HW_SIGNAL_FAULT, ?HW_poll_temperature_c, ?HW_SET_THRUST_N,
      ?HW_command_thrust, ?HW_run_control_loop_once, ?HW_bump_temperature;
    try match goal with
        | |- context [if ?b then _ else _] => destruct b
        end;
    cbn [THRUST];
    auto using capped_within_cap, policy_within_cap.
Qed.

(** X5. The thrust cap is an invariant of the whole lifecycle: from a state
    whose THRUST is within the cap, no sequence of operations ever takes
    THRUST above the cap. *)
Theorem thrust_cap_invariant (cfg : config) (ops : list lifecycle_op) :
  forall w : world,
    THRUST (HW w) <= CFG_MAX_THRUST_N cfg ->
    THRUST (HW (perform_all cfg ops w)) <= CFG_MAX_THRUST_N cfg.
Proof.
  induction ops as [| o rest IH]; intros w Hw; cbn [perform_all].
  - exact Hw.
  - apply IH, perform_keeps_thrust_cap, Hw.
Qed.

Lemma thrust_cap_invariant_witness :
  let ops := [ op_init_system; op_command_thrust 7000; op_bump_temperature;
               op_command_thrust 9000; op_run_control_loop_once ] in
  THRUST (HW world_init) <= CFG_MAX_THRUST_N ground /\
  THRUST (HW (perform_all ground ops world_init)) <= CFG_MAX_THRUST_N ground.
Proof.
  intros ops.
  assert (H : THRUST (HW world_init) <= CFG_MAX_THRUST_N ground)
    by (vm_compute; discriminate).
  split; [exact H |].
  exact (thrust_cap_invariant ground ops world_init H).
Defined.

(** X6. Every request from 0 up to twice the cap is accepted by
    [command_thrust]: it returns [ERR_OK], THRUST becomes the smaller of
    the request and the cap, and the other three registers keep their
    values. *)
Theorem command_thrust_accepts (cfg : config) (r : Z) (w : world) :
  0 <= r <= 2 * CFG_MAX_THRUST_N cfg ->
  eval (command_thrust cfg r) w = ERR_OK /\
  HW (exec (command_thrust cfg r) w) =
    Regs (CTRL (HW w)) (STATUS (HW w)) (Z.min r (CFG_MAX_THRUST_N cfg))
         (SENS_TEMP (HW w)).
Proof.
  intros [Hlo Hhi].
  pose proof (cap_within_structural_limit cfg) as Hcap.
  rewrite eval_command_thrust, HW_command_thrust, Z.gtb_ltb.
  destruct (Z.ltb_spec (2 * CFG_MAX_THRUST_N cfg) r); [lia |].
  split; [reflexivity |]. f_equal. unfold capped.
  rewrite to_uint32_small by (unfold uint32_range, UINT32_MODULUS; lia).
  rewrite Z.gtb_ltb.
  destruct (Z.ltb_spec (CFG_MAX_THRUST_N cfg) r); lia.
Qed.

Lemma command_thrust_accepts_witness :
  0 <= 2500 <= 2 * CFG_MAX_THRUST_N flight /\
  eval (command_thrust flight 2500) world_init = ERR_OK /\
  HW (exec (command_thrust flight 2500) world_init) = Regs 0 0 2500 0.
Proof.
  assert (H : 0 <= 2500 <= 2 * CFG_MAX_THRUST_N flight)
    by (vm_compute; split; discriminate).
  split; [exact H |].
  exact (command_thrust_accepts flight 2500 world_init H).
Defined.

(** X7. The cast in [SET_THRUST_N] makes a negative request a huge unsigned
    one, so it is stored as the cap, not as a small value. *)
Theorem SET_THRUST_N_negative_request (cfg : config) (func : string)
    (r : Z) (w : world) :
  - 2 ^ 31 <= r < 0 ->
  THRUST (HW (exec (SET_THRUST_N cfg func r) w)) = CFG_MAX_THRUST_N cfg.
Proof.
  intros Hr.
  pose proof (cap_within_structural_limit cfg) as Hcap.
  rewrite HW_SET_THRUST_N. cbn [THRUST]. unfold capped.
  assert (E : to_uint32 r = r + 2 ^ 32).
  { unfold to_uint32, UINT32_MODULUS.
    symmetry. apply (Z.mod_unique r (2 ^ 32) (-1)); lia. }
  rewrite E, Z.gtb_ltb.
  destruct (Z.ltb_spec (CFG_MAX_THRUST_N cfg) (r + 2 ^ 32)); [reflexivity | lia].
Qed.

Lemma SET_THRUST_N_negative_request_witness :
  - 2 ^ 31 <= -1 < 0 /\
  THRUST (HW (exec (SET_THRUST_N ground "command_thrust" (-1)) world_init)) =
  CFG_MAX_THRUST_N ground.
Proof.
  assert (H : - 2 ^ 31 <= -1 < 0) by lia.
  split; [exact H |].
  exact (SET_THRUST_N_negative_request ground "command_thrust" (-1)
           world_init H).
Defined.

(** X8. [SET_THRUST_N] writes THRUST only, and a later thrust write
    overrides an earlier one completely. *)
Theorem SET_THRUST_N_frame_last_wins (cfg : config) (f g : string)
    (a b : Z) (w : world) :
  let hw' := HW (exec (SET_THRUST_N cfg f a) w) in
  CTRL hw' = CTRL (HW w) /\ STATUS hw' = STATUS (HW w) /\
  SENS_TEMP hw' = SENS_TEMP (HW w) /\
  HW (exec (SET_THRUST_N cfg g b) (exec (SET_THRUST_N cfg f a) w)) =
    HW (exec (SET_THRUST_N cfg g b) w).
Proof.
  cbn zeta. rewrite !HW_SET_THRUST_N. repeat split.
Qed.

(** X9. What [SET_THRUST_N] logs.  With logs compiled in (ground build) a
    request above the cap adds a capping line followed by the line for the
    capped value, any other request adds the single line for the value
    written; with logs stripped (flight build) nothing is added. *)
Theorem SET_THRUST_N_log (cfg : config) (func : string) (r : Z)
    (w : world) :
  stderr (exec (SET_THRUST_N cfg func r) w) =
  stderr w ++
  match build cfg with
  | FLIGHT_BUILD => []
  | GROUND_BUILD =>
      if to_uint32 r >? 4000 then
        [ LogLine func (MsgThrustCapping (to_uint32 r) 4000);
          LogLine func (MsgThrustSet 4000) ]
      else [ LogLine func (MsgThrustSet (to_uint32 r)) ]
  end.
Proof.
  rewrite stderr_SET_THRUST_N.
  unfold emitted, SET_THRUST_N_lines, CFG_ENABLE_LOGS, CFG_MAX_THRUST_N.
  destruct (build cfg); reflexivity.
Qed.

(** ** The control loop *)

(** X10. [poll_temperature_c] cannot fail in the simulation: it returns
    [ERR_OK] (the [ERR_SENSOR_FAIL] branch is unreachable), delivers the
    sensor register converted to [int] whatever [*out_c] held and whichever
    CPU reader is compiled in, and leaves the register bank untouched. *)
Theorem poll_temperature_c_never_fails (cfg cfg' : config) (out_c out_c' : Z)
    (w : world) :
  fst (eval (poll_temperature_c cfg out_c) w) = ERR_OK /\
  snd (eval (poll_temperature_c cfg out_c) w) = to_int (SENS_TEMP (HW w)) /\
  eval (poll_temperature_c cfg' out_c') w = eval (poll_temperature_c cfg out_c) w /\
  HW (exec (poll_temperature_c cfg out_c) w) = HW w.
Proof.
  rewrite !eval_poll_temperature_c, HW_poll_temperature_c. repeat split.
Qed.

(** X11. The status of a control-loop call is decided by the FAULT bit at
    entry alone: [ERR_SYSTEM_FAULT] when it is set, [ERR_OK] when it is
    clear; the call never returns [ERR_SENSOR_FAIL] or [ERR_THRUST_RANGE]. *)
Theorem run_once_status (cfg : config) (w : world) :
  eval (run_control_loop_once cfg) w =
    (if fault_is_set (HW w) then ERR_SYSTEM_FAULT else ERR_OK) /\
  eval (run_control_loop_once cfg) w <> ERR_SENSOR_FAIL /\
  eval (run_control_loop_once cfg) w <> ERR_THRUST_RANGE.
Proof.
  rewrite eval_run_control_loop_once.
  destruct (fault_is_set (HW w)); repeat split; discriminate.
Qed.

(** X12. The temperature is the sensor register read as a signed [int], so a
    raw value with the top bit set counts as below 30: the call writes
    THRUST = 3000 when the raw value is under 30 or at least 2^31, and
    THRUST = 1500 otherwise. *)
Theorem run_once_thrust_by_raw_temperature (cfg : config) (w : world) :
  uint32_range (SENS_TEMP (HW w)) ->
  THRUST (HW (exec (run_control_loop_once cfg) w)) =
  if (SENS_TEMP (HW w) <? 30) || (2 ^ 31 <=? SENS_TEMP (HW w))
  then 3000 else 1500.
Proof.
  intros Hr. unfold uint32_range, UINT32_MODULUS in Hr.
  rewrite HW_run_control_loop_once. cbn [THRUST].
  unfold policy, to_int, UINT32_MODULUS.
  rewrite Z.mod_small by lia.
  destruct (Z.ltb_spec (SENS_TEMP (HW w)) (2 ^ 31));
    destruct (Z.leb_spec (2 ^ 31) (SENS_TEMP (HW w))); try lia.
  - rewrite orb_false_r.
    destruct (Z.ltb_spec (SENS_TEMP (HW w)) 30); reflexivity.
  - rewrite orb_true_r.
    destruct (Z.ltb_spec (SENS_TEMP (HW w) - 2 ^ 32) 30); [reflexivity | lia].
Qed.

Lemma run_once_thrust_by_raw_temperature_witness :
  let w := World (Regs 1 0 0 4294967295) [] in
  uint32_range (SENS_TEMP (HW w)) /\
  THRUST (HW (exec (run_control_loop_once ground) w)) = 3000.
Proof.
  intros w.
  assert (H : uint32_range (SENS_TEMP (HW w)))
    by (unfold uint32_range, UINT32_MODULUS; cbn; lia).
  split; [exact H |].
  exact (run_once_thrust_by_raw_temperature ground w H).
Defined.

(** X13. A control-loop call repeated without any change by the caller does
    nothing new: the second call returns the same status and leaves the
    register bank exactly as the first did. *)
Theorem run_once_idempotent (cfg : config) (w : world) :
  let w1 := exec (run_control_loop_once cfg) w in
  eval (run_control_loop_once cfg) w1 = eval (run_control_loop_once cfg) w /\
  HW (exec (run_control_loop_once cfg) w1) = HW w1.
Proof.
  cbn zeta.
  rewrite !eval_run_control_loop_once, !HW_run_control_loop_once.
  cbn [CTRL STATUS THRUST SENS_TEMP]. split; reflexivity.
Qed.

(** X14. What a control-loop call logs.  In a ground build it adds exactly
    five lines, in this order: its own trace, the trace and the temperature
    line of the poll, the trace of the thrust command and the line for the
    thrust written (never a capping line); in a flight build it adds
    nothing. *)
Theorem run_once_log (cfg : config) (w : world) :
  let temp_c := to_int (SENS_TEMP (HW w)) in
  stderr (exec (run_control_loop_once cfg) w) =
  stderr w ++
  match build cfg with
  | FLIGHT_BUILD => []
  | GROUND_BUILD =>
      [ TraceLine "run_control_loop_once";
        TraceLine "poll_temperature_c";
        LogLine "poll_temperature_c" (MsgTemp temp_c);
        TraceLine "command_thrust";
        LogLine "command_thrust"
                (MsgThrustSet (if temp_c <? 30 then 3000 else 1500)) ]
  end.
Proof.
  cbn zeta. rewrite stderr_run_control_loop_once.
  unfold emitted, run_once_lines, CFG_ENABLE_LOGS.
  destruct (build cfg); [reflexivity |].
  destruct (policy_cases (to_int (SENS_TEMP (HW w)))) as [[Hc E] | [Hc E]];
    rewrite E;
    destruct (Z.ltb_spec (to_int (SENS_TEMP (HW w))) 30);
    (reflexivity || lia).
Qed.

(** X15. [init_system] always reports success, sets the ENABLE bit, seeds
    the sensor with 42 whatever it held, and keeps STATUS and THRUST; the
    control-loop call that follows therefore polls 42 and writes
    THRUST = 1500. *)
Theorem init_system_seeds (cfg : config) (w : world) :
  let w0 := exec (init_system cfg) w in
  eval (init_system cfg) w = 0 /\
  Z.testbit (CTRL (HW w0)) 0 = true /\
  STATUS (HW w0) = STATUS (HW w) /\ THRUST (HW w0) = THRUST (HW w) /\
  SENS_TEMP (HW w0) = 42 /\
  snd (eval (poll_temperature_c cfg 0) w0) = 42 /\
  THRUST (HW (exec (run_control_loop_once cfg) w0)) = 1500.
Proof.
  cbn zeta.
  rewrite eval_init_system, eval_poll_temperature_c,
    HW_run_control_loop_once, HW_init_system.
  cbn [CTRL STATUS THRUST SENS_TEMP snd].
  rewrite testbit_to_uint32, Z.lor_spec, testbit_CTRL_ENABLE by lia.
  rewrite orb_true_r. repeat split.
Qed.

(** ** Flight builds are silent *)

Lemma emitted_flight cfg lines :
  build cfg = FLIGHT_BUILD -> emitted cfg lines = [].
Proof. intros H. unfold emitted, CFG_ENABLE_LOGS. rewrite H. reflexivity. Qed.

Lemma perform_flight_silent cfg o w :
  build cfg = FLIGHT_BUILD -> stderr (perform cfg o w) = stderr w.
Proof.
  intros Hb.
  destruct o; cbn [perform];
    rewrite ?stderr_init_system, ?stderr_ENABLE_SYSTEM,
      ?stderr_DISABLE_SYSTEM, ?stderr_SIGNAL_FAULT,
      ?stderr_poll_temperature_c, ?stderr_SET_THRUST_N,
      ?stderr_command_thrust, ?stderr_run_control_loop_once,
      ?stderr_bump_temperature;
    rewrite ?emitted_flight by exact Hb;
    rewrite ?app_nil_r; reflexivity.
Qed.

(** X16. With logs stripped (flight build) no lifecycle operation writes to
    the standard error stream, whatever the sequence of operations. *)
Theorem flight_build_silent (cfg : config) (ops : list lifecycle_op) :
  build cfg = FLIGHT_BUILD ->
  forall w : world, stderr (perform_all cfg ops w) = stderr w.
Proof.
  intros Hb. induction ops as [| o rest IH]; intros w; cbn [perform_all].
  - reflexivity.
  - rewrite IH. apply perform_flight_silent, Hb.
Qed.

Lemma flight_build_silent_witness :
  let ops := [ op_init_system; op_command_thrust 9000;
               op_SIGNAL_FAULT "main"; op_run_control_loop_once;
               op_DISABLE_SYSTEM "main" ] in
  build flight = FLIGHT_BUILD /\
  stderr (perform_all flight ops world_init) = stderr world_init.
Proof.
  intros ops.
  assert (H : build flight = FLIGHT_BUILD) by reflexivity.
  split; [exact H |].
  exact (flight_build_silent flight ops H world_init).
Defined.

(** ** The error table *)

Lemma error_to_str_cases (e : Z) :
  (e = ERR_OK /\ error_to_str e = "No Error"%string) \/
  (e = ERR_SENSOR_FAIL /\ error_to_str e = "Sensor Failure"%string) \/
  (e = ERR_THRUST_RANGE /\ error_to_str e = "Thrust Out of Range"%string) \/
  (e = ERR_SYSTEM_FAULT /\ error_to_str e = "System Fault"%string) \/
  (~ In e (map fst ERROR_TABLE) /\ error_to_str e = "Unknown"%string).
Proof.
  unfold error_to_str, ERROR_TABLE. cbn [switch_cases map fst In].
  destruct (Z.eqb_spec e ERR_OK) as [-> | N0]; [auto |].
  destruct (Z.eqb_spec e ERR_SENSOR_FAIL) as [-> | N1]; [auto |].
  destruct (Z.eqb_spec e ERR_THRUST_RANGE) as [-> | N2]; [auto |].
  destruct (Z.eqb_spec e ERR_SYSTEM_FAULT) as [-> | N3]; [auto 6 |].
  do 4 right. split; [| reflexivity].
  intros [H | [H | [H | [H | []]]]]; congruence.
Qed.

(** X17. The message tells whether the code was known: [error_to_str]
    returns "Unknown" exactly for the integers that are not a code of the
    table. *)
Theorem error_to_str_unknown_iff (e : Z) :
  error_to_str e = "Unknown"%string <-> ~ In e (map fst ERROR_TABLE).
Proof.
  split.
  - intros Hu.
    destruct (error_to_str_cases e)
      as [[_ H] | [[_ H] | [[_ H] | [[_ H] | [H _]]]]];
      try (rewrite H in Hu; discriminate Hu).
    exact H.
  - intros Hn.
    destruct (error_to_str_cases e)
      as [[E _] | [[E _] | [[E _] | [[E _] | [_ H]]]]];
      try (exfalso; apply Hn; rewrite E; cbn; auto 6).
    exact H.
Qed.

(** X18. The table has no duplicate code and no duplicate message: two codes
    of the table with the same message are the same code. *)
Theorem error_to_str_injective (e1 e2 : Z) :
  In e1 (map fst ERROR_TABLE) -> In e2 (map fst ERROR_TABLE) ->
  error_to_str e1 = error_to_str e2 -> e1 = e2.
Proof.
  intros H1 H2 E.
  destruct (error_to_str_cases e1)
    as [[A1 M1] | [[A1 M1] | [[A1 M1] | [[A1 M1] | [A1 _]]]]];
    try contradiction;
    destruct (error_to_str_cases e2)
      as [[A2 M2] | [[A2 M2] | [[A2 M2] | [[A2 M2] | [A2 _]]]]];
    try contradiction;
    rewrite M1, M2 in E; try discriminate E; congruence.
Qed.

Lemma error_to_str_injective_witness :
  In ERR_SYSTEM_FAULT (map fst ERROR_TABLE) /\ In 30 (map fst ERROR_TABLE) /\
  error_to_str ERR_SYSTEM_FAULT = error_to_str 30 /\ ERR_SYSTEM_FAULT = 30.
Proof.
  assert (H1 : In ERR_SYSTEM_FAULT (map fst ERROR_TABLE)) by (cbn; auto 6).
  assert (H2 : In 30 (map fst ERROR_TABLE)) by (cbn; auto 6).
  assert (E : error_to_str ERR_SYSTEM_FAULT = error_to_str 30) by reflexivity.
  split; [exact H1 | split; [exact H2 | split; [exact E |]]].
  exact (error_to_str_injective ERR_SYSTEM_FAULT 30 H1 H2 E).
Defined.

(** X19. Every status the control code can return is a code of the table, so
    reporting it never prints "Unknown": this holds for [init_system],
    [poll_temperature_c], [command_thrust] with any argument, and
    [run_control_loop_once], in every state. *)
Theorem returned_statuses_have_messages (cfg : config) (out_c r : Z)
    (w : world) :
  error_to_str (eval (init_system cfg) w) <> "Unknown"%string /\
  error_to_str (fst (eval (poll_temperature_c cfg out_c) w))
    <> "Unknown"%string /\
  error_to_str (eval (command_thrust cfg r) w) <> "Unknown"%string /\
  error_to_str (eval (run_control_loop_once cfg) w) <> "Unknown"%string.
Proof.
  rewrite eval_init_system, eval_poll_temperature_c, eval_command_thrust,
    eval_run_control_loop_once.
  destruct (r >? 2 * CFG_MAX_THRUST_N cfg), (fault_is_set (HW w));
    repeat split; discriminate.
Qed.

(** ** The demo loop and [main] *)

Lemma demo_loop_break cfg n w :
  fault_is_set (HW w) = true ->
  exec (demo_loop cfg (S n)) w =
  exec (report_error ERR_SYSTEM_FAULT) (exec (run_control_loop_once cfg) w).
Proof.
  intros Hf. cbn [demo_loop].
  rewrite exec_bind, eval_run_control_loop_once, Hf. reflexivity.
Qed.

Lemma demo_loop_continue cfg n w :
  fault_is_set (HW w) = false ->
  exec (demo_loop cfg (S n)) w =
  exec (demo_loop cfg n)
       (exec bump_temperature (exec (run_control_loop_once cfg) w)).
Proof.
  intros Hf. cbn [demo_loop].
  rewrite exec_bind, eval_run_control_loop_once, Hf.
  cbn [negb Z.eqb ERR_OK]. rewrite exec_bind. reflexivity.
Qed.

Lemma to_uint32_add_l (a b : Z) : to_uint32 (to_uint32 a + b) = to_uint32 (a + b).
Proof. unfold to_uint32. apply Zplus_mod_idemp_l. Qed.

Lemma to_int_to_uint32 (a : Z) : to_int (to_uint32 a) = to_int a.
Proof.
  unfold to_int, to_uint32. rewrite Z.mod_mod by (unfold UINT32_MODULUS; lia).
  reflexivity.
Qed.

(** X20. In a state without fault, [n + 1] iterations of the demo loop all
    run: SENS_TEMP ends up raised by 5 per iteration (modulo 2^32), THRUST
    holds what the policy commands for the temperature polled in the last
    iteration, and CTRL and STATUS are unchanged. *)
Theorem demo_loop_runs_all (cfg : config) (n : nat) :
  forall w : world,
    fault_is_set (HW w) = false ->
    HW (exec (demo_loop cfg (S n)) w) =
    Regs (CTRL (HW w)) (STATUS (HW w))
         (policy (to_int (SENS_TEMP (HW w) + 5 * Z.of_nat n)))
         (to_uint32 (SENS_TEMP (HW w) + 5 * Z.of_nat (S n))).
Proof.
  induction n as [| n IH]; intros w Hf; rewrite demo_loop_continue by exact Hf.
  - cbn [demo_loop]. rewrite exec_ret, HW_bump_temperature,
      HW_run_control_loop_once.
    cbn [CTRL STATUS THRUST SENS_TEMP Z.of_nat].
    rewrite Z.mul_0_r, Z.add_0_r. reflexivity.
  - rewrite IH.
    + rewrite HW_bump_temperature, HW_run_control_loop_once.
      cbn [CTRL STATUS THRUST SENS_TEMP].
      rewrite to_uint32_add_l.
      rewrite <- (to_int_to_uint32 (to_uint32 _ + _)), to_uint32_add_l,
        to_int_to_uint32.
      replace (SENS_TEMP (HW w) + 5 + 5 * Z.of_nat n)
        with (SENS_TEMP (HW w) + 5 * Z.of_nat (S n)) by lia.
      replace (SENS_TEMP (HW w) + 5 + 5 * Z.of_nat (S n))
        with (SENS_TEMP (HW w) + 5 * Z.of_nat (S (S n))) by lia.
      reflexivity.
    + rewrite <- Hf. apply fault_is_set_CTRL.
      rewrite HW_bump_temperature, HW_run_control_loop_once. reflexivity.
Qed.


Lemma demo_loop_runs_all_witness :
  let w := exec (init_system ground) world_init in
  fault_is_set (HW w) = false /\
  HW (exec (demo_loop ground 3) w) = Regs 1 0 1500 57.
Proof.
  intros w.
  assert (H : fault_is_set (HW w) = false) by reflexivity.
  split; [exact H |].
  exact (demo_loop_runs_all ground 2 w H).
Defined.

(** X21. In a state with the FAULT bit set, the demo loop stops in its first
    iteration whatever the iteration count: one control-loop call runs (so
    THRUST is still written), SENS_TEMP is not incremented, and the last
    line on stderr is the report of code 30, "System Fault". *)
Theorem demo_loop_breaks_on_fault (cfg : config) (n : nat) (w : world) :
  fault_is_set (HW w) = true ->
  HW (exec (demo_loop cfg (S n)) w) =
    Regs (CTRL (HW w)) (STATUS (HW w))
         (policy (to_int (SENS_TEMP (HW w)))) (SENS_TEMP (HW w)) /\
  stderr (exec (demo_loop cfg (S n)) w) =
    stderr (exec (run_control_loop_once cfg) w) ++
    [ErrorLine 30 "System Fault"].
Proof.
  intros Hf. rewrite demo_loop_break by exact Hf.
  rewrite HW_report_error, HW_run_control_loop_once, stderr_report_error.
  split; reflexivity.
Qed.

Lemma demo_loop_breaks_on_fault_witness :
  let w := exec (SIGNAL_FAULT flight "main")
             (exec (init_system flight) world_init) in
  fault_is_set (HW w) = true /\
  HW (exec (demo_loop flight 3) w) = Regs 3 0 1500 42 /\
  stderr (exec (demo_loop flight 3) w) =
    stderr (exec (run_control_loop_once flight) w) ++
    [ErrorLine 30 "System Fault"].
Proof.
  intros w.
  assert (H : fault_is_set (HW w) = true) by reflexivity.
  split; [exact H |].
  exact (demo_loop_breaks_on_fault flight 2 w H).
Defined.

Lemma run_bump_keeps_fault_clear cfg w :
  fault_is_set (HW w) = false ->
  fault_is_set
    (HW (exec bump_temperature (exec (run_control_loop_once cfg) w))) = false.
Proof.
  intros Hf. rewrite <- Hf. apply fault_is_set_CTRL.
  rewrite HW_bump_temperature, HW_run_control_loop_once. reflexivity.
Qed.

Lemma HW_step cfg w :
  HW (exec bump_temperature (exec (run_control_loop_once cfg) w)) =
  Regs (CTRL (HW w)) (STATUS (HW w))
       (policy (to_int (SENS_TEMP (HW w))))
       (to_uint32 (SENS_TEMP (HW w) + 5)).
Proof. rewrite HW_bump_temperature, HW_run_control_loop_once. reflexivity. Qed.

Lemma stderr_step cfg w :
  stderr (exec bump_temperature (exec (run_control_loop_once cfg) w)) =
  stderr w ++ emitted cfg (run_once_lines (to_int (SENS_TEMP (HW w)))).
Proof.
  rewrite stderr_bump_temperature. apply stderr_run_control_loop_once.
Qed.

(** The three iterations of [main]'s loop when no fault is latent. *)
Lemma demo_loop_3_no_fault cfg w :
  fault_is_set (HW w) = false ->
  let step := fun w0 =>
    exec bump_temperature (exec (run_control_loop_once cfg) w0) in
  exec (demo_loop cfg 3) w = step (step (step w)).
Proof.
  intros Hf step.
  assert (F1 : fault_is_set (HW (step w)) = false)
    by (apply run_bump_keeps_fault_clear, Hf).
  assert (F2 : fault_is_set (HW (step (step w))) = false)
    by (apply run_bump_keeps_fault_clear, F1).
  rewrite demo_loop_continue by exact Hf.
  rewrite demo_loop_continue by exact F1.
  rewrite demo_loop_continue by exact F2.
  reflexivity.
Qed.

Lemma cap_multiple_of_10 cfg : (CFG_MAX_THRUST_N cfg mod 10 =? 0) = true.
Proof. destruct (CFG_MAX_THRUST_N_cases cfg) as [H | H]; rewrite H; reflexivity. Qed.

(** The worlds [main] goes through, in order. *)
Lemma main_steps cfg w :
  let w1 := exec (init_system cfg) (exec (LOGF cfg "main" MsgBuild) w) in
  let w2 := exec (demo_loop cfg 3) w1 in
  let w3 := exec (SIGNAL_FAULT cfg "main") w2 in
  let w4 := exec (report_error ERR_SYSTEM_FAULT)
              (exec (run_control_loop_once cfg) w3) in
  main cfg w = (Returned 0, exec (DISABLE_SYSTEM cfg "main") w4).
Proof.
  cbn zeta.
  rewrite (surjective_pairing (main cfg w)).
  change (fst (main cfg w)) with (eval (main cfg) w).
  change (snd (main cfg w)) with (exec (main cfg) w).
  unfold main, SAFE_CALL, ASSERT.
  rewrite cap_multiple_of_10. cbn [negb].
  assert (K : forall A (k : M A),
             (if CFG_ENABLE_ASSERTS cfg then k else k) = k)
    by (intros; destruct (CFG_ENABLE_ASSERTS cfg); reflexivity).
  rewrite K.
  rewrite !eval_bind, !exec_bind, eval_init_system. cbn [negb Z.eqb].
  rewrite !eval_bind, !exec_bind, eval_run_control_loop_once,
    fault_is_set_after_SIGNAL_FAULT.
  cbn [negb Z.eqb ERR_SYSTEM_FAULT ERR_OK].
  reflexivity.
Qed.

Lemma HW_main cfg w :
  HW (exec (main cfg) w) =
  Regs (to_uint32
          (Z.land
             (to_uint32
                (Z.lor (to_uint32 (Z.lor (CTRL (HW w)) CTRL_ENABLE))
                       CTRL_FAULT))
             (to_uint32 (Z.lnot CTRL_ENABLE))))
       (STATUS (HW w)) 1500
       (if fault_is_set (HW w) then 42 else 57).
Proof.
  unfold exec at 1. rewrite main_steps. cbn [snd].
  rewrite HW_DISABLE_SYSTEM, HW_report_error, HW_run_control_loop_once,
    HW_SIGNAL_FAULT.
  cbn [CTRL STATUS THRUST SENS_TEMP].
  set (w1 := exec (init_system cfg) (exec (LOGF cfg "main" MsgBuild) w)).
  assert (E1 : HW w1 = Regs (to_uint32 (Z.lor (CTRL (HW w)) CTRL_ENABLE))
                            (STATUS (HW w)) (THRUST (HW w)) 42).
  { subst w1. rewrite HW_init_system, HW_LOGF. reflexivity. }
  assert (F1 : fault_is_set (HW w1) = fault_is_set (HW w)).
  { apply fault_is_set_CTRL. rewrite E1. cbn [CTRL].
    rewrite land_fault_to_uint32. apply land_fault_lor_enable. }
  destruct (fault_is_set (HW w)) eqn:Hf.
  - rewrite demo_loop_break by exact F1.
    rewrite HW_report_error, HW_run_control_loop_once, E1. reflexivity.
  - rewrite demo_loop_3_no_fault by exact F1. cbv beta zeta.
    repeat (rewrite HW_step; cbn [CTRL STATUS THRUST SENS_TEMP]).
    rewrite E1. reflexivity.
Qed.

(** X22. Whatever the build, the CPU and the register contents at start,
    [main] runs to its end and returns 0 (neither [SAFE_CALL] nor [ASSERT]
    stops it), and it leaves the system disabled with the FAULT bit set,
    THRUST at 1500 and STATUS untouched; SENS_TEMP ends at 57 when no fault
    was latent at start (three loop iterations ran) and at 42 when one was
    (the loop broke in its first iteration). *)
Theorem main_outcome (cfg : config) (w : world) :
  let hw' := HW (exec (main cfg) w) in
  eval (main cfg) w = Returned 0 /\
  Z.testbit (CTRL hw') 0 = false /\
  fault_is_set hw' = true /\
  STATUS hw' = STATUS (HW w) /\
  THRUST hw' = 1500 /\
  SENS_TEMP hw' = (if fault_is_set (HW w) then 42 else 57).
Proof.
  cbn zeta. rewrite HW_main. cbn [CTRL STATUS THRUST SENS_TEMP].
  split; [unfold eval; rewrite main_steps; reflexivity |].
  split.
  - rewrite testbit_to_uint32, Z.land_spec, testbit_not_CTRL_ENABLE by lia.
    apply andb_false_r.
  - split; [| repeat split].
    unfold fault_is_set. cbn [CTRL].
    rewrite land_fault_to_uint32, land_fault_clear_enable,
      land_fault_to_uint32, land_fault_lor_fault.
    reflexivity.
Qed.

(** X23. What [main] writes to stderr when no fault is latent at start.  A
    flight build writes a single line, the report of the injected fault; a
    ground build writes 26 lines: the banner, the two lines of
    [init_system], five lines for each of the three loop iterations
    (temperatures 42, 47, 52, thrust 1500), the fault signal, five lines
    for the faulted call at 57, the report of code 30 and the disable
    line. *)
Theorem main_log (cfg : config) (w : world) :
  fault_is_set (HW w) = false ->
  stderr (exec (main cfg) w) =
  stderr w ++
  match build cfg with
  | FLIGHT_BUILD => [ ErrorLine 30 "System Fault" ]
  | GROUND_BUILD =>
      [ LogLine "main" MsgBuild;
        TraceLine "init_system";
        LogLine "init_system" MsgSystemEnabled ] ++
      run_once_lines 42 ++ run_once_lines 47 ++ run_once_lines 52 ++
      [ LogLine "main" MsgFaultSignaled ] ++
      run_once_lines 57 ++
      [ ErrorLine 30 "System Fault";
        LogLine "main" MsgSystemDisabled ]
  end.
Proof.
  intros Hf.
  unfold exec at 1. rewrite main_steps. cbn [snd].
  set (w1 := exec (init_system cfg) (exec (LOGF cfg "main" MsgBuild) w)).
  assert (E1 : HW w1 = Regs (to_uint32 (Z.lor (CTRL (HW w)) CTRL_ENABLE))
                            (STATUS (HW w)) (THRUST (HW w)) 42).
  { subst w1. rewrite HW_init_system, HW_LOGF. reflexivity. }
  assert (F1 : fault_is_set (HW w1) = false).
  { rewrite <- Hf. apply fault_is_set_CTRL. rewrite E1. cbn [CTRL].
    rewrite land_fault_to_uint32. apply land_fault_lor_enable. }
  rewrite stderr_DISABLE_SYSTEM, stderr_report_error,
    stderr_run_control_loop_once, stderr_SIGNAL_FAULT, HW_SIGNAL_FAULT.
  cbn [SENS_TEMP].
  rewrite demo_loop_3_no_fault by exact F1. cbv beta zeta.
  repeat (rewrite stderr_step).
  repeat (rewrite HW_step; cbn [CTRL STATUS THRUST SENS_TEMP]).
  rewrite E1. cbn [SENS_TEMP]. subst w1.
  rewrite stderr_init_system, stderr_LOGF.
  unfold emitted, CFG_ENABLE_LOGS.
  destruct (build cfg); rewrite <- ?app_assoc, ?app_nil_r; reflexivity.
Qed.

Lemma main_log_witness :
  fault_is_set (HW world_init) = false /\
  stderr (exec (main flight) world_init) = [ ErrorLine 30 "System Fault" ] /\
  List.length (stderr (exec (main ground) world_init)) = 26%nat.
Proof.
  assert (H : fault_is_set (HW world_init) = false) by reflexivity.
  split; [exact H |]. split.
  - exact (main_log flight world_init H).
  - rewrite (main_log ground world_init H). reflexivity.
Defined.
